(** * Trivia API: the Flask route handlers of [backend/flaskr/__init__.py]

    A shallow embedding of the handlers and of the two helpers
    [paginate_questions] and [read_categories], over
    - Python's list slicing and [dict.get] ([Module Py]),
    - the SQL operators the queries use ([Module Sql]),
    - the [Question] and [Category] tables of [models.py] ([Module Models]).

    Python integers are [Z].  A handler is a function from the request and
    the store to the store it leaves and either an aborted status code or
    the dictionary given to [jsonify]. *)

From Stdlib Require Import ZArith List String Ascii Bool Lia.
From Stdlib Require Import Permutation Sorted.
From stdpp Require Import base option list gmap strings.
Import ListNotations.

Local Open Scope Z_scope.

(** ** Python built-ins *)
Module Py.

(** [PySlice_AdjustIndices] for step 1: a negative bound counts from the
    end of the list, and both bounds are then clamped to [0 .. len]. *)
Definition adjust_index (len i : Z) : Z :=
  if i <? 0 then Z.max (i + len) 0 else Z.min i len.

(** [l[start:stop]] *)
Definition slice {A : Type} (l : list A) (start stop : Z) : list A :=
  let len := Z.of_nat (length l) in
  let lo := adjust_index len start in
  let hi := adjust_index len stop in
  take (Z.to_nat (hi - lo)) (drop (Z.to_nat lo) l).

(** [len(l)] *)
Definition len {A : Type} (l : list A) : Z := Z.of_nat (length l).

(** A key of a JSON object as [dict.get] sees it: the key is absent, or
    it carries JSON [null] (Python [None]), or it carries a value. *)
Inductive field (A : Type) : Type :=
| Absent
| Null
| Value (a : A).
Arguments Absent {A}.
Arguments Null {A}.
Arguments Value {A} a.

(** [d.get(k)]: [None] for an absent key and for a [null] one. *)
Definition get {A : Type} (f : field A) : option A :=
  match f with
  | Value a => Some a
  | Absent | Null => None
  end.

(** [d.get(k, dflt)]: the default replaces an absent key only. *)
Definition get_default {A : Type} (f : field A) (dflt : A) : option A :=
  match f with
  | Absent => Some dflt
  | Null => None
  | Value a => Some a
  end.

(** [l[i]] for an integer index: a negative index counts from the end;
    [None] stands for [IndexError]. *)
Definition getitem {A : Type} (l : list A) (i : Z) : option A :=
  let n := len l in
  if i <? 0
  then (if 0 <=? i + n then l !! Z.to_nat (i + n) else None)
  else l !! Z.to_nat i.

End Py.

(** ** SQL operators used by the queries *)
Module Sql.

(** Case folding of [ILIKE] on the ASCII letters.  Strings are byte
    strings; outside the ASCII range the folding of the database depends
    on its locale and is not modelled: the properties that depend on the
    folding are stated for ASCII terms and texts. *)
Definition lower_ascii (c : ascii) : ascii :=
  let n := nat_of_ascii c in
  if ((65 <=? n) && (n <=? 90))%nat then ascii_of_nat (n + 32) else c.

Fixpoint lower (s : string) : string :=
  match s with
  | EmptyString => EmptyString
  | String c s' => String (lower_ascii c) (lower s')
  end.

Definition percent : ascii := "%"%char.
Definition underscore : ascii := "_"%char.
Definition backslash : ascii := "\"%char.

(** [s LIKE p]: [%] matches any run of characters, [_] any one
    character, and a backslash makes the character after it literal.
    (A pattern that ends in a lone backslash is an error in PostgreSQL;
    it matches nothing here.) *)
Fixpoint like (p s : string) : bool :=
  match p with
  | EmptyString =>
      match s with EmptyString => true | String _ _ => false end
  | String c p' =>
      if Ascii.eqb c percent then
        (fix skip (s : string) : bool :=
           like p' s ||
           match s with
           | EmptyString => false
           | String _ s' => skip s'
           end) s
      else if Ascii.eqb c underscore then
        match s with
        | EmptyString => false
        | String _ s' => like p' s'
        end
      else if Ascii.eqb c backslash then
        match p' with
        | EmptyString => false
        | String e p'' =>
            match s with
            | EmptyString => false
            | String d s' => Ascii.eqb e d && like p'' s'
            end
        end
      else
        match s with
        | EmptyString => false
        | String d s' => Ascii.eqb c d && like p' s'
        end
  end.

(** [col ILIKE p] on a nullable text column: [NULL] is never selected. *)
Definition ilike (col : option string) (p : string) : bool :=
  match col with
  | None => false
  | Some s => like (lower p) (lower s)
  end.

(** [col = v] as SQLAlchemy renders it for a Python value: [IS NULL]
    when the value is [None], an equality that [NULL] never satisfies
    otherwise. *)
Definition eq_value (col v : option Z) : bool :=
  match v, col with
  | None, None => true
  | Some x, Some y => x =? y
  | _, _ => false
  end.

End Sql.

(** ** The tables of [models.py] *)
Module Models.

(** Modelled from the spec: the [Question] model class of [models.py],
    which is not among the sources.  The id is the generated primary key;
    the other columns are nullable ([None] is SQL [NULL]). *)
Record Question : Type := mkQuestion {
  id : Z;
  question : option string;
  answer : option string;
  category : option Z;
  difficulty : option Z
}.

(** Modelled from the spec: the formatted record, the externally visible
    field subset of a stored question. *)
Record Formatted : Type := mkFormatted {
  f_id : Z;
  f_question : option string;
  f_answer : option string;
  f_category : option Z;
  f_difficulty : option Z
}.

(** Modelled from the spec: [Question.format] of [models.py]. *)
Definition format (q : Question) : Formatted :=
  {| f_id := id q;
     f_question := question q;
     f_answer := answer q;
     f_category := category q;
     f_difficulty := difficulty q |}.

(** Modelled from the spec: the [Category] model class of [models.py]. *)
Record Category : Type := mkCategory {
  cat_id : Z;
  cat_type : string
}.

(** The persistent store: the two tables in row order and the sequence
    that generates question ids. *)
Record Store : Type := mkStore {
  question_rows : list Question;
  category_rows : list Category;
  question_id_seq : Z
}.

(** The primary key and its sequence: ids are pairwise distinct and the
    sequence is ahead of every id handed out. *)
Definition store_ok (st : Store) : Prop :=
  NoDup (map id (question_rows st)) /\
  Forall (fun q => id q < question_id_seq st) (question_rows st).

(** [ORDER BY id]: insertion sort on the id column. *)
Fixpoint insert_by_id (q : Question) (l : list Question) : list Question :=
  match l with
  | [] => [q]
  | x :: l' =>
      if id q <? id x then q :: x :: l' else x :: insert_by_id q l'
  end.

Definition order_by_id (l : list Question) : list Question :=
  foldr insert_by_id [] l.

(** [one_or_none()] on the rows a query selects; the inner [None] is the
    Python [None], the outer one is [MultipleResultsFound]. *)
Definition one_or_none (rows : list Question) : option (option Question) :=
  match rows with
  | [] => Some None
  | [q] => Some (Some q)
  | _ :: _ :: _ => None
  end.

(** Modelled from the spec: [Question.insert] of [models.py].  The record
    built from (question, answer, category, difficulty) is persisted
    under the next id of the sequence, and the object then carries that
    id. *)
Definition insert (new_question new_answer : option string)
    (new_category new_difficulty : option Z) (st : Store)
    : Store * Question :=
  let q := {| id := question_id_seq st;
              question := new_question;
              answer := new_answer;
              category := new_category;
              difficulty := new_difficulty |} in
  ({| question_rows := question_rows st ++ [q];
      category_rows := category_rows st;
      question_id_seq := question_id_seq st + 1 |}, q).

(** Modelled from the spec: [Question.delete] of [models.py]: the row
    with the object's primary key is removed. *)
Definition delete (q : Question) (st : Store) : Store :=
  {| question_rows :=
       List.filter (fun x => negb (id x =? id q)) (question_rows st);
     category_rows := category_rows st;
     question_id_seq := question_id_seq st |}.

End Models.

Module Flaskr.
Import Models.

(** The part of Flask's [request] the handlers read: the [page] query
    argument after [type=int] conversion ([None] when it is absent or is
    not an integer, where [args.get] falls back to the default), and the
    JSON body. *)
Record Request (B : Type) : Type := mkRequest {
  args_page : option Z;
  get_json : B
}.
Arguments mkRequest {B} _ _.
Arguments args_page {B} _.
Arguments get_json {B} _.

Definition QUESTIONS_PER_PAGE : Z := 10.

(** [request.args.get('page', 1, type=int)] *)
Definition page_of {B : Type} (request : Request B) : Z :=
  default 1 (args_page request).

Definition paginate_questions {B : Type} (request : Request B)
    (selection : list Question) : list Formatted :=
  let page := page_of request in
  let start := (page - 1) * QUESTIONS_PER_PAGE in
  let end_ := start + QUESTIONS_PER_PAGE in
  let questions := map format selection in
  let current_questions := Py.slice questions start end_ in
  current_questions.

(** *** Handlers: state and abort *)

Inductive Outcome (A : Type) : Type :=
| Abort (status : Z)
| Return (a : A).
Arguments Abort {A} status.
Arguments Return {A} a.

Definition Handler (A : Type) : Type := Store -> Store * Outcome A.

Definition ret {A : Type} (a : A) : Handler A :=
  fun st => (st, Return a).

Definition bind {A B : Type} (m : Handler A) (k : A -> Handler B)
    : Handler B :=
  fun st =>
    match m st with
    | (st', Return a) => k a st'
    | (st', Abort status) => (st', Abort status)
    end.

(** [abort(status)] *)
Definition abort {A : Type} (status : Z) : Handler A :=
  fun st => (st, Abort status).

(** An exception no handler catches: Flask answers 500. *)
Definition raise {A : Type} : Handler A := abort 500.

Definition when_ (c : bool) (m : Handler unit) : Handler unit :=
  if c then m else ret tt.

Notation "x <- m ;; k" := (bind m (fun x => k))
  (at level 100, m at next level, right associativity).
Notation "m ;;; k" := (bind m (fun _ => k))
  (at level 100, right associativity).

(** [Question.query.all()] *)
Definition Question_query_all : Handler (list Question) :=
  fun st => (st, Return (question_rows st)).

(** [Question.query.order_by(Question.id).all()] *)
Definition Question_query_order_by_id : Handler (list Question) :=
  fun st => (st, Return (order_by_id (question_rows st))).

(** [Question.query.filter(p).all()] *)
Definition Question_query_filter (p : Question -> bool)
    : Handler (list Question) :=
  fun st => (st, Return (List.filter p (question_rows st))).

(** [Category.query.all()] *)
Definition Category_query_all : Handler (list Category) :=
  fun st => (st, Return (category_rows st)).

Definition Question_insert (new_question new_answer : option string)
    (new_category new_difficulty : option Z) : Handler Question :=
  fun st =>
    let '(st', q) := insert new_question new_answer
                       new_category new_difficulty st in
    (st', Return q).

Definition Question_delete (q : Question) : Handler unit :=
  fun st => (delete q st, Return tt).

Definition jsonify {A : Type} (payload : A) : Handler A := ret payload.

(** The payload of a response, when the handler did not abort. *)
Definition payload_of {A : Type} (response : Store * Outcome A) : option A :=
  match response with
  | (_, Return payload) => Some payload
  | (_, Abort _) => None
  end.

(** *** [read_categories] *)

Definition read_categories : Handler (gmap Z string) :=
  categories <- Category_query_all ;;
  ret (foldl (fun category_dict category =>
                <[cat_id category := cat_type category]> category_dict)
             ∅ categories).

(** *** GET /categories *)
Module Categories.
Record payload : Type := mk {
  success : bool;
  categories : gmap Z string
}.
End Categories.

Definition get_categories : Handler Categories.payload :=
  categories <- read_categories ;;
  jsonify {| Categories.success := true;
             Categories.categories := categories |}.

(** *** GET /questions *)
Module Listing.
Record payload : Type := mk {
  success : bool;
  questions : list Formatted;
  currentCategory : list (option Z);
  categories : gmap Z string;
  total_questions : Z
}.
End Listing.

Definition get_questions (request : Request unit)
    : Handler Listing.payload :=
  selection <- Question_query_order_by_id ;;
  let current_questions := paginate_questions request selection in
  categories <- read_categories ;;
  when_ (Py.len current_questions =? 0) (abort 404) ;;;
  let category_ids := map category selection in
  all <- Question_query_all ;;
  jsonify {| Listing.success := true;
             Listing.questions := current_questions;
             Listing.currentCategory := category_ids;
             Listing.categories := categories;
             Listing.total_questions := Py.len all |}.

(** *** DELETE /questions/<int:question_id> *)
Module Deleted.
Record payload : Type := mk {
  success : bool;
  deleted : Z;
  questions : list Formatted;
  total_questions : Z
}.
End Deleted.

Definition delete_question (request : Request unit) (question_id : Z)
    : Handler Deleted.payload :=
  rows <- Question_query_filter (fun q => id q =? question_id) ;;
  match one_or_none rows with
  | None => raise
  | Some None => abort 404
  | Some (Some question) =>
      Question_delete question ;;;
      selection <- Question_query_order_by_id ;;
      let current_questions := paginate_questions request selection in
      all <- Question_query_all ;;
      jsonify {| Deleted.success := true;
                 Deleted.deleted := question_id;
                 Deleted.questions := current_questions;
                 Deleted.total_questions := Py.len all |}
  end.

(** *** POST /questions *)
Record PostBody : Type := mkPostBody {
  body_question : Py.field string;
  body_answer : Py.field string;
  body_category : Py.field Z;
  body_difficulty : Py.field Z
}.

Module Created.
Record payload : Type := mk {
  success : bool;
  created : Z;
  questions : list Formatted;
  total_questions : Z
}.
End Created.

(** [v == ''] for a value that is a string or [None] *)
Definition is_empty_str (v : option string) : bool :=
  match v with
  | Some EmptyString => true
  | _ => false
  end.

Definition post_question (request : Request PostBody)
    : Handler Created.payload :=
  let body := get_json request in
  let new_question := Py.get (body_question body) in
  let new_answer := Py.get (body_answer body) in
  let new_category := Py.get (body_category body) in
  let new_difficulty := Py.get (body_difficulty body) in
  when_ (is_empty_str new_question || is_empty_str new_answer)
        (abort 422) ;;;
  question <- Question_insert new_question new_answer
                new_category new_difficulty ;;
  selection <- Question_query_order_by_id ;;
  let current_questions := paginate_questions request selection in
  all <- Question_query_all ;;
  jsonify {| Created.success := true;
             Created.created := id question;
             Created.questions := current_questions;
             Created.total_questions := Py.len all |}.

(** *** POST /search *)
Record SearchBody : Type := mkSearchBody {
  searchTerm : Py.field string
}.

Module Search.
Record payload : Type := mk {
  success : bool;
  questions : list Formatted;
  currentCategory : list (option Z);
  total_questions : Z
}.
End Search.

(** ['%' + search_term + '%'] *)
Definition search_pattern (search_term : string) : string :=
  String Sql.percent (search_term ++ String Sql.percent EmptyString).

Definition search_question (request : Request SearchBody)
    : Handler Search.payload :=
  match Py.get (searchTerm (get_json request)) with
  | None => abort 422
  | Some search_term =>
      when_ (is_empty_str (Some search_term)) (abort 422) ;;;
      selection <- Question_query_filter (fun q =>
                     Sql.ilike (question q)
                               (search_pattern search_term)) ;;
      let current_questions := paginate_questions request selection in
      let category_ids := map category selection in
      jsonify {| Search.success := true;
                 Search.questions := current_questions;
                 Search.currentCategory := category_ids;
                 Search.total_questions := Py.len selection |}
  end.

(** *** GET /categories/<int:category_id>/questions *)
Module ByCategory.
Record payload : Type := mk {
  success : bool;
  questions : list Formatted;
  currentCategory : Z;
  total_questions : Z
}.
End ByCategory.

Definition get_by_category (request : Request unit) (category_id : Z)
    : Handler ByCategory.payload :=
  questions <- Question_query_all ;;
  let category_ids := map category questions in
  when_ (bool_decide (Some category_id ∉ category_ids)) (abort 422) ;;;
  selection <- Question_query_filter (fun q =>
                 Sql.eq_value (category q) (Some category_id)) ;;
  let current_questions := paginate_questions request selection in
  jsonify {| ByCategory.success := true;
             ByCategory.questions := current_questions;
             ByCategory.currentCategory := category_id;
             ByCategory.total_questions := Py.len selection |}.

(** *** POST /quizzes *)
Record QuizCategory : Type := mkQuizCategory {
  quiz_category_id_field : Py.field Z
}.

Record QuizBody : Type := mkQuizBody {
  previous_questions : Py.field (list Z);
  quiz_category : Py.field QuizCategory
}.

Module Quiz.
Record payload : Type := mk {
  success : bool;
  question : option Formatted
}.
End Quiz.

(** [Question.id.notin_(previous_questions)] *)
Definition id_notin (previous_questions : list Z) (q : Question) : bool :=
  bool_decide (id q ∉ previous_questions).

Section WithRandom.

(** [random.randrange(start, stop)] of the call at hand. *)
Variable randrange : Z -> Z -> Z.

Definition quiz (request : Request QuizBody) : Handler Quiz.payload :=
  let body := get_json request in
  match Py.get (previous_questions body), Py.get (quiz_category body) with
  | Some previous_questions, Some quiz_category =>
      let quiz_category_id :=
        Py.get_default (quiz_category_id_field quiz_category) 0 in
      selection <-
        (if bool_decide (quiz_category_id = Some 0)
         then Question_query_filter (id_notin previous_questions)
         else Question_query_filter (fun q =>
                Sql.eq_value (category q) quiz_category_id
                && id_notin previous_questions q)) ;;
      if Py.len selection >? 0 then
        match Py.getitem selection (randrange 0 (Py.len selection)) with
        | None => raise
        | Some selected_question =>
            jsonify {| Quiz.success := true;
                       Quiz.question := Some (format selected_question) |}
        end
      else
        jsonify {| Quiz.success := true;
                   Quiz.question := None |}
  | _, _ => abort 422
  end.

End WithRandom.

End Flaskr.


(** ** The spec's words, as definitions of their own

    These follow the wording of the specification, not the code; the
    properties below compare them with what the handlers compute. *)
Module Spec.
Import Models Flaskr.

Fixpoint starts_with (s p : string) {struct p} : bool :=
  match p, s with
  | EmptyString, _ => true
  | String c p', String d s' => Ascii.eqb c d && starts_with s' p'
  | String _ _, EmptyString => false
  end.

(** [p] occurs in [s] as a substring. *)
Fixpoint contains (s p : string) : bool :=
  starts_with s p ||
  match s with
  | EmptyString => false
  | String _ s' => contains s' p
  end.

(** Case-insensitive containment match of a search term against a
    question text; a question without text matches nothing. *)
Definition contains_ci (text : option string) (term : string) : bool :=
  match text with
  | None => false
  | Some s => contains (Sql.lower s) (Sql.lower term)
  end.

(** A character that [LIKE] reads as itself. *)
Definition plain_char (c : ascii) : bool :=
  negb (Ascii.eqb c Sql.percent) && negb (Ascii.eqb c Sql.underscore)
  && negb (Ascii.eqb c Sql.backslash).

(** A search term free of the [LIKE] wildcards and of its escape. *)
Fixpoint plain (s : string) : bool :=
  match s with
  | EmptyString => true
  | String c s' => plain_char c && plain s'
  end.

(** The quiz candidates: all questions, restricted to the given category
    unless its id is 0, whose id is not in the previous-questions list. *)
Definition quiz_candidates (previous : list Z) (category_id : option Z)
    (rows : list Question) : list Question :=
  List.filter
    (fun q => bool_decide (category_id = Some 0 \/ category q = category_id)
              && bool_decide (id q ∉ previous))
    rows.

(** The label the category table gives an id (the last row wins when an
    id occurs twice, as in a dictionary filled in row order). *)
Definition label_of (rows : list Category) (i : Z) : option string :=
  cat_type <$> last (List.filter (fun c => cat_id c =? i) rows).

(** A listing in ascending id order. *)
Definition ascending (l : list Question) : Prop :=
  StronglySorted (fun x y => id x <= id y) l.

(** A request that changes the store. *)
Inductive Call : Type :=
| CallPost (request : Request PostBody)
| CallDelete (request : Request unit) (question_id : Z).

Definition call (c : Call) (st : Store) : Store :=
  match c with
  | CallPost request => fst (post_question request st)
  | CallDelete request question_id =>
      fst (delete_question request question_id st)
  end.

(** The store after a sequence of such requests, oldest first. *)
Definition after (calls : list Call) (st : Store) : Store :=
  foldl (fun st c => call c st) st calls.

(** A character of the ASCII range, where the case folding of [ILIKE] is
    the folding of the letters A to Z whatever the locale of the
    database. *)
Definition ascii_char (c : ascii) : bool := (nat_of_ascii c <? 128)%nat.

Fixpoint ascii_string (s : string) : bool :=
  match s with
  | EmptyString => true
  | String c s' => ascii_char c && ascii_string s'
  end.

(** Every stored question text is ASCII (a question without text
    counts). *)
Definition ascii_texts (rows : list Question) : bool :=
  forallb (fun q => match question q with
                    | None => true
                    | Some s => ascii_string s
                    end) rows.

(** An id the sequence has passed and that no row carries. *)
Definition retired (i : Z) (st : Store) : Prop :=
  store_ok st /\ i < question_id_seq st /\ i ∉ map id (question_rows st).

End Spec.

(** ** Sample data for the examples *)
Module Samples.
Import Models Flaskr.

Definition sample_question (i : Z) : Question :=
  {| id := i;
     question := Some "What is the Capital"%string;
     answer := Some "Paris"%string;
     category := Some 1;
     difficulty := Some 2 |}.

(** Questions with ids [1 .. n], all of category 1. *)
Definition sample_rows (n : Z) : list Question :=
  map sample_question (seqZ 1 n).

Definition sample_store (n : Z) : Store :=
  {| question_rows := sample_rows n;
     category_rows := [ {| cat_id := 1; cat_type := "Science"%string |};
                        {| cat_id := 2; cat_type := "Art"%string |} ];
     question_id_seq := n + 1 |}.

(** A GET or DELETE request with the given [page] argument. *)
Definition request_page (page : option Z) : Request unit :=
  mkRequest page tt.

(** A POST /questions request. *)
Definition post_request (new_question new_answer : Py.field string)
    (new_category new_difficulty : Py.field Z) : Request PostBody :=
  mkRequest None {| body_question := new_question;
                    body_answer := new_answer;
                    body_category := new_category;
                    body_difficulty := new_difficulty |}.

(** A POST /search request. *)
Definition search_request (page : option Z) (term : Py.field string)
    : Request SearchBody :=
  mkRequest page {| searchTerm := term |}.

(** A POST /quizzes request. *)
Definition quiz_request (previous : Py.field (list Z))
    (quiz_category : Py.field QuizCategory) : Request QuizBody :=
  mkRequest None {| previous_questions := previous;
                    quiz_category := quiz_category |}.

(** A store whose only question has id 5. *)
Definition store_of_question_5 : Store :=
  {| question_rows := [sample_question 5];
     category_rows := [];
     question_id_seq := 6 |}.

(** A draw that always returns the lower bound. *)
Definition lowest (start stop : Z) : Z := start.

End Samples.

(** ** The application: views, error handlers and their responses *)
Module App.
Import Models Flaskr.

(** The dictionary an error handler gives to [jsonify]. *)
Record ErrorBody : Type := mkErrorBody {
  error_success : bool;
  error : Z;
  message : string
}.

(** [@app.errorhandler(status)]: the body and the status code that the
    handler registered for a status returns; [None] for a status without
    a handler of the application. *)
Definition errorhandler (status : Z) : option (ErrorBody * Z) :=
  if status =? 404 then
    Some ({| error_success := false; error := 404;
             message := "Resource Not Found" |}, 404)
  else if status =? 422 then
    Some ({| error_success := false; error := 422;
             message := "Unprocessable" |}, 422)
  else if status =? 400 then
    Some ({| error_success := false; error := 400;
             message := "Bad Request" |}, 400)
  else if status =? 405 then
    Some ({| error_success := false; error := 405;
             message := "Method Not Allowed" |}, 405)
  else if status =? 500 then
    Some ({| error_success := false; error := 500;
             message := "Internal Server Error" |}, 500)
  else None.

(** The dictionaries the views give to [jsonify]. *)
Inductive Payload : Type :=
| OfCategories (p : Categories.payload)
| OfListing (p : Listing.payload)
| OfDeleted (p : Deleted.payload)
| OfCreated (p : Created.payload)
| OfSearch (p : Search.payload)
| OfByCategory (p : ByCategory.payload)
| OfQuiz (p : Quiz.payload).

(** The [success] key of a view's dictionary. *)
Definition payload_success (p : Payload) : bool :=
  match p with
  | OfCategories p => Categories.success p
  | OfListing p => Listing.success p
  | OfDeleted p => Deleted.success p
  | OfCreated p => Created.success p
  | OfSearch p => Search.success p
  | OfByCategory p => ByCategory.success p
  | OfQuiz p => Quiz.success p
  end.

Inductive Body : Type :=
| ViewJson (p : Payload)
| ErrorJson (e : ErrorBody)
| DefaultPage.

Record Response : Type := mkResponse {
  status : Z;
  body : Body
}.

(** What Flask makes of a view's outcome: a returned dictionary is a 200
    response; an abort, or an exception (status 500), is answered by the
    error handler registered for the status, and by the framework's own
    page when there is none. *)
Definition make_response {A : Type} (wrap : A -> Payload) (o : Outcome A)
    : Response :=
  match o with
  | Return p => {| status := 200; body := ViewJson (wrap p) |}
  | Abort s =>
      match errorhandler s with
      | Some (e, code) => {| status := code; body := ErrorJson e |}
      | None => {| status := s; body := DefaultPage |}
      end
  end.

(** A request that a route of the application has matched.  The body
    of a POST request is a JSON object whose fields, when present and not
    null, have the documented types: a body of another shape, a field of
    another type, or a row that the database refuses make the program
    raise an exception (status 500) that [serve] has no counterpart
    for. *)
Inductive Endpoint : Type :=
| GET_categories
| GET_questions (request : Request unit)
| DELETE_question (request : Request unit) (question_id : Z)
| POST_questions (request : Request PostBody)
| POST_search (request : Request SearchBody)
| GET_category_questions (request : Request unit) (category_id : Z)
| POST_quizzes (request : Request QuizBody).

Definition run_view {A : Type} (wrap : A -> Payload) (view : Handler A)
    (st : Store) : Store * Response :=
  (fst (view st), make_response wrap (snd (view st))).

Definition serve (randrange : Z -> Z -> Z) (e : Endpoint)
    : Store -> Store * Response :=
  match e with
  | GET_categories => run_view OfCategories get_categories
  | GET_questions request => run_view OfListing (get_questions request)
  | DELETE_question request question_id =>
      run_view OfDeleted (delete_question request question_id)
  | POST_questions request => run_view OfCreated (post_question request)
  | POST_search request => run_view OfSearch (search_question request)
  | GET_category_questions request category_id =>
      run_view OfByCategory (get_by_category request category_id)
  | POST_quizzes request => run_view OfQuiz (quiz randrange request)
  end.

(** The requests that write: POST /questions and DELETE /questions/<id>. *)
Definition writes (e : Endpoint) : bool :=
  match e with
  | DELETE_question _ _ | POST_questions _ => true
  | _ => false
  end.

(** The questions list of GET /questions, empty when it aborts. *)
Definition listed (request : Request unit) (st : Store) : list Formatted :=
  match payload_of (get_questions request st) with
  | Some payload => Listing.questions payload
  | None => []
  end.

(** The number of pages of [n] questions. *)
Definition page_count (n : Z) : Z := (n + 9) / 10.

(** A category table with distinct ids. *)
Definition category_ids_distinct (st : Store) : Prop :=
  NoDup (map cat_id (category_rows st)).

End App.

(** * Properties *)

Import Models Flaskr Samples Spec.

(** ** Python slices *)
Section Slices.
Context {A : Type}.
Implicit Types (l : list A) (start stop : Z).

Lemma adjust_index_range len i :
  0 <= len -> 0 <= Py.adjust_index len i <= len.
Proof.
  intros Hlen. unfold Py.adjust_index.
  destruct (Z.ltb_spec i 0); lia.
Qed.

(** Clamping never stretches an interval. *)
Lemma adjust_index_contract len i j :
  0 <= len -> i <= j ->
  Py.adjust_index len j - Py.adjust_index len i <= j - i.
Proof.
  intros Hlen Hij. unfold Py.adjust_index.
  destruct (Z.ltb_spec i 0), (Z.ltb_spec j 0); lia.
Qed.

Lemma slice_length l start stop :
  Py.len (Py.slice l start stop) =
  Z.max 0 (Py.adjust_index (Py.len l) stop - Py.adjust_index (Py.len l) start).
Proof.
  unfold Py.slice, Py.len.
  pose proof (adjust_index_range (Z.of_nat (length l)) start ltac:(lia)).
  pose proof (adjust_index_range (Z.of_nat (length l)) stop ltac:(lia)).
  cbv zeta. rewrite length_take, length_drop. lia.
Qed.

(** With bounds that are not negative a slice is a [drop] and a [take]. *)
Lemma slice_nonneg l start stop :
  0 <= start <= stop ->
  Py.slice l start stop =
  take (Z.to_nat (stop - start)) (drop (Z.to_nat start) l).
Proof.
  intros [H0 Hle]. unfold Py.slice, Py.adjust_index.
  destruct (Z.ltb_spec start 0); [lia|].
  destruct (Z.ltb_spec stop 0); [lia|].
  destruct (Z.le_gt_cases (Z.of_nat (length l)) start) as [Hbig|Hsmall].
  - rewrite !(drop_ge l) by lia. by rewrite !take_nil.
  - rewrite (Z.min_l start) by lia.
    destruct (Z.le_gt_cases stop (Z.of_nat (length l))).
    + by rewrite (Z.min_l stop) by lia.
    + rewrite (Z.min_r stop) by lia.
      rewrite !take_ge; [done| |]; rewrite length_drop; lia.
Qed.

Lemma slice_empty_beyond l start stop :
  Py.len l <= start -> Py.slice l start stop = [].
Proof.
  unfold Py.len. intros Hbig.
  apply length_zero_iff_nil.
  pose proof (slice_length l start stop) as Hlen. unfold Py.len in Hlen.
  pose proof (adjust_index_range (Z.of_nat (length l)) stop ltac:(lia)).
  assert (Py.adjust_index (Z.of_nat (length l)) start = Z.of_nat (length l)).
  { unfold Py.adjust_index. destruct (Z.ltb_spec start 0); lia. }
  lia.
Qed.

(** [l[-k:0]] is empty. *)
Lemma slice_empty_to_zero l start :
  Py.slice l start 0 = [].
Proof.
  apply length_zero_iff_nil.
  pose proof (slice_length l start 0) as Hlen. unfold Py.len in Hlen.
  pose proof (adjust_index_range (Z.of_nat (length l)) start ltac:(lia)).
  assert (Py.adjust_index (Z.of_nat (length l)) 0 = 0).
  { unfold Py.adjust_index. simpl. lia. }
  lia.
Qed.

Lemma slice_length_le l start stop :
  start <= stop -> Py.len (Py.slice l start stop) <= stop - start.
Proof.
  intros Hle. rewrite slice_length.
  pose proof (adjust_index_contract (Py.len l) start stop) as Hc.
  unfold Py.len in *. lia.
Qed.

End Slices.

(** ** The paginator *)
Section Paginator.
Context {B : Type}.
Implicit Types (request : Request B) (selection : list Question).

Lemma paginate_questions_slice request selection :
  paginate_questions request selection =
  Py.slice (map format selection)
           ((page_of request - 1) * 10) (page_of request * 10).
Proof.
  unfold paginate_questions, QUESTIONS_PER_PAGE. f_equal. lia.
Qed.

(** A page never holds more than ten questions, whatever the page number. *)
Lemma paginate_questions_at_most_10 request selection :
  Py.len (paginate_questions request selection) <= 10.
Proof.
  rewrite paginate_questions_slice.
  etrans; [apply slice_length_le|]; lia.
Qed.

Lemma paginate_questions_formatted request selection f :
  f ∈ paginate_questions request selection ->
  exists q, q ∈ selection /\ f = format q.
Proof.
  unfold paginate_questions, Py.slice. cbv zeta. intros Hin.
  apply subseteq_take, subseteq_drop, list_elem_of_In, in_map_iff in Hin.
  destruct Hin as (q & <- & Hq). exists q. by rewrite list_elem_of_In.
Qed.

(** From page 1 on, the page is the run of ten that follows the
    (p-1)*10 questions before it. *)
Lemma paginate_questions_from_page_1 request selection :
  1 <= page_of request ->
  paginate_questions request selection =
  take 10 (drop (Z.to_nat ((page_of request - 1) * 10)) (map format selection)).
Proof.
  intros Hp. rewrite paginate_questions_slice.
  rewrite slice_nonneg by lia. do 2 f_equal. lia.
Qed.

(** C1 (as amended): for every selection of N questions and every page
    p >= 1 (1 when the argument is absent), [paginate_questions] returns
    the formatted questions at positions (p-1)*10 .. p*10-1, that is the
    sub-sequence [(p-1)*10 : p*10], whose length is
    min(10, max(0, N - 10*(p-1))); for p = 0 and for p beyond the last
    page the result is the empty list.  The function is total: no page
    number raises an error. *)
Theorem paginate_questions_page request selection :
  let p := page_of request in
  let N := Py.len selection in
  let result := paginate_questions request selection in
  (args_page request = None -> p = 1) /\
  (1 <= p ->
     result = take 10 (drop (Z.to_nat ((p - 1) * 10)) (map format selection))
     /\ Py.len result = Z.min 10 (Z.max 0 (N - 10 * (p - 1)))) /\
  (p = 0 \/ N <= 10 * (p - 1) -> result = []).
Proof.
  intros p N result. split; [|split].
  - unfold p, page_of. by intros ->.
  - intros Hp.
    assert (result =
      take 10 (drop (Z.to_nat ((p - 1) * 10)) (map format selection))) as Hres
      by by apply paginate_questions_from_page_1.
    split; [done|].
    rewrite Hres. unfold Py.len, N, Py.len.
    rewrite length_take, length_drop, length_map. lia.
  - unfold result. rewrite paginate_questions_slice. fold p.
    intros [->|Hbig].
    + apply slice_empty_to_zero.
    + apply slice_empty_beyond. unfold Py.len, N, Py.len in *.
      rewrite length_map. lia.
Qed.

End Paginator.

(** The amended C1 at page 2 of fifteen questions. *)
Lemma paginate_questions_page_witness :
  map f_id (paginate_questions (request_page (Some 2)) (sample_rows 15))
    = [11; 12; 13; 14; 15]
  /\ Py.len (paginate_questions (request_page (Some 2)) (sample_rows 15))
    = Z.min 10 (Z.max 0 (Py.len (sample_rows 15) - 10 * (2 - 1))).
Proof.
  pose proof (paginate_questions_page (request_page (Some 2)) (sample_rows 15))
    as (_ & Hpage & _).
  assert (1 <= page_of (request_page (Some 2))) as Hp
    by (vm_compute; discriminate).
  destruct (Hpage Hp) as [Hres Hlen].
  split; [by rewrite Hres|exact Hlen].
Defined.


(** C1 (as stated) fails at page -1 of fifteen questions: the page number
    is not positive, yet the slice [-20:-10] counts from the end of the
    list and holds the first five questions, where the length formula of
    the claim gives ten. *)
Lemma paginate_questions_negative_page :
  page_of (request_page (Some (-1))) <= 0 /\
  map f_id (paginate_questions (request_page (Some (-1))) (sample_rows 15))
    = [1; 2; 3; 4; 5] /\
  paginate_questions (request_page (Some (-1))) (sample_rows 15) <> [] /\
  Py.len (paginate_questions (request_page (Some (-1))) (sample_rows 15))
    <> Z.min 10 (Z.max 0 (Py.len (sample_rows 15) - 10 * (-1 - 1))).
Proof.
  split; [vm_compute; discriminate|]. split; [reflexivity|]. split.
  - discriminate.
  - vm_compute. discriminate.
Qed.

(** The length formula of C1 also disagrees with its own empty-page clause
    at page 0, where the code returns the empty list. *)
Example paginate_questions_page_zero :
  paginate_questions (request_page (Some 0)) (sample_rows 15) = [] /\
  Z.min 10 (Z.max 0 (Py.len (sample_rows 15) - 10 * (0 - 1))) = 10.
Proof. split; reflexivity. Qed.

(** ** The store *)
Section StoreFacts.
Implicit Types (q : Question) (l rows : list Question) (st : Store).

Lemma insert_by_id_perm q l : Permutation (insert_by_id q l) (q :: l).
Proof.
  induction l as [|x l IH]; simpl; [done|].
  destruct (id q <? id x); [done|].
  rewrite IH. apply perm_swap.
Qed.

Lemma order_by_id_perm l : Permutation (order_by_id l) l.
Proof.
  induction l as [|x l IH]; simpl; [done|].
  rewrite insert_by_id_perm. by constructor.
Qed.

Lemma order_by_id_length l : length (order_by_id l) = length l.
Proof. apply Permutation_length, order_by_id_perm. Qed.

Lemma order_by_id_elem_of q l : q ∈ order_by_id l <-> q ∈ l.
Proof. by rewrite (order_by_id_perm l). Qed.

Lemma insert_by_id_ascending q l :
  ascending l -> ascending (insert_by_id q l).
Proof.
  unfold ascending. induction 1 as [|x l Hs IH Hx]; simpl.
  - repeat constructor.
  - destruct (Z.ltb_spec (id q) (id x)).
    + constructor; [by constructor|].
      constructor; [lia|].
      eapply Forall_impl; [exact Hx|]. simpl. intros; lia.
    + constructor; [done|].
      rewrite (insert_by_id_perm q l). by constructor.
Qed.

Lemma order_by_id_ascending l : ascending (order_by_id l).
Proof.
  induction l; simpl; [constructor|]. by apply insert_by_id_ascending.
Qed.

Lemma filter_perm (p : Question -> bool) l l' :
  Permutation l l' -> Permutation (List.filter p l) (List.filter p l').
Proof.
  induction 1 as [|x l l' _ IH|x y l|l1 l2 l3 _ IH1 _ IH2]; simpl.
  - done.
  - destruct (p x); [by constructor|done].
  - destruct (p x), (p y); try done. apply perm_swap.
  - by etrans.
Qed.

Lemma filter_singleton_order_by_id (p : Question -> bool) l q :
  List.filter p l = [q] -> List.filter p (order_by_id l) = [q].
Proof.
  intros Hf. apply Permutation_length_1_inv.
  rewrite <- Hf. symmetry. apply filter_perm, order_by_id_perm.
Qed.

Lemma filter_id_absent rows i :
  i ∉ map id rows -> List.filter (fun x => id x =? i) rows = [].
Proof.
  induction rows as [|x rows IH]; simpl; [done|].
  rewrite not_elem_of_cons. intros [Hne Hnotin].
  destruct (Z.eqb_spec (id x) i); [congruence|]. by apply IH.
Qed.

(** A primary key selects its own row and nothing else. *)
Lemma filter_id_unique rows q :
  NoDup (map id rows) -> q ∈ rows ->
  List.filter (fun x => id x =? id q) rows = [q].
Proof.
  induction rows as [|x rows IH]; simpl.
  - intros _ Hin. by apply elem_of_nil in Hin.
  - rewrite NoDup_cons. intros [Hx Hnd] Hin.
    apply elem_of_cons in Hin as [->|Hin].
    + rewrite Z.eqb_refl. f_equal. by apply filter_id_absent.
    + destruct (Z.eqb_spec (id x) (id q)) as [Heq|_]; [|by apply IH].
      exfalso. apply Hx. rewrite Heq.
      apply list_elem_of_In, in_map, list_elem_of_In, Hin.
Qed.

Lemma filter_length_split (p : Question -> bool) l :
  (length (List.filter p l) + length (List.filter (fun x => negb (p x)) l)
   = length l)%nat.
Proof.
  induction l as [|x l IH]; simpl; [done|].
  destruct (p x); simpl; lia.
Qed.

Lemma filter_nil_iff (p : Question -> bool) l :
  List.filter p l = [] <-> forall x, x ∈ l -> p x = false.
Proof.
  induction l as [|x l IH]; simpl.
  - split; [|done]. intros _ x Hx. by apply elem_of_nil in Hx.
  - destruct (p x) eqn:Hpx.
    + split; [done|]. intros H. specialize (H x (list_elem_of_here _ _)).
      congruence.
    + rewrite IH. split.
      * intros H y Hy. apply elem_of_cons in Hy as [->|Hy]; auto.
      * intros H y Hy. apply H. by apply list_elem_of_further.
Qed.

Lemma insert_store_ok st a b c d :
  store_ok st -> store_ok (fst (insert a b c d st)).
Proof.
  intros [Hnd Hlt]. split; simpl.
  - rewrite map_app. simpl. apply NoDup_app. split; [done|]. split.
    + intros i Hi Hi'. apply list_elem_of_singleton in Hi'. subst i.
      apply list_elem_of_In, in_map_iff in Hi as (x & Hx & Hin).
      rewrite Forall_forall in Hlt.
      apply list_elem_of_In in Hin. specialize (Hlt x Hin). simpl in Hlt. lia.
    + apply NoDup_singleton.
  - apply Forall_app. split.
    + eapply Forall_impl; [exact Hlt|]. simpl. intros; lia.
    + repeat constructor. simpl. lia.
Qed.

Lemma delete_store_ok st q : store_ok st -> store_ok (delete q st).
Proof.
  intros [Hnd Hlt]. split; simpl.
  - clear Hlt. induction (question_rows st) as [|x rows IH]; simpl; [done|].
    simpl in Hnd. apply NoDup_cons in Hnd as [Hx Hnd].
    destruct (negb (id x =? id q)); simpl; [|by apply IH].
    apply NoDup_cons. split; [|by apply IH].
    intros Hin. apply Hx.
    apply list_elem_of_In, in_map_iff in Hin as (y & Hy & Hin).
    apply filter_In in Hin as [Hin _].
    rewrite <- Hy. by apply list_elem_of_In, in_map.
  - rewrite Forall_forall in *. intros x Hx.
    apply list_elem_of_In, filter_In in Hx as [Hx _].
    by apply Hlt, list_elem_of_In.
Qed.

Lemma delete_removes st q : id q ∉ map id (question_rows (delete q st)).
Proof.
  simpl. intros Hin.
  apply list_elem_of_In, in_map_iff in Hin as (y & Hy & Hin).
  apply filter_In in Hin as [_ Hne].
  rewrite Hy, Z.eqb_refl in Hne. discriminate.
Qed.

Lemma sample_rows_ids n : map id (sample_rows n) = seqZ 1 n.
Proof.
  unfold sample_rows. rewrite map_map. simpl. apply map_id.
Qed.

(** The sample stores are well formed. *)
Lemma sample_store_ok n : store_ok (sample_store n).
Proof.
  split; simpl.
  - rewrite sample_rows_ids. apply NoDup_seqZ.
  - apply Forall_forall. intros q Hq.
    assert (id q ∈ map id (sample_rows n)) as Hid
      by by apply list_elem_of_In, in_map, list_elem_of_In.
    rewrite sample_rows_ids in Hid. apply elem_of_seqZ in Hid. lia.
Qed.

End StoreFacts.

(** ** Handlers that only read *)
Section Reading.
Implicit Types (st : Store) (request : Request unit).

Lemma foldl_insert_lookup (rows : list Category) (d : gmap Z string) i :
  foldl (fun category_dict category =>
           <[cat_id category := cat_type category]> category_dict) d rows !! i
  = match label_of rows i with
    | Some label => Some label
    | None => d !! i
    end.
Proof.
  revert d. induction rows as [|c rows IH]; intros d; simpl; [done|].
  rewrite IH. unfold label_of. simpl.
  destruct (Z.eqb_spec (cat_id c) i) as [Heq|Hne].
  - destruct (List.filter (fun c0 => cat_id c0 =? i) rows) as [|c' l] eqn:Hf.
    + simpl. subst i. by rewrite lookup_insert_eq.
    + rewrite last_cons_cons.
      destruct (last (c' :: l)) eqn:Hl; [done|].
      by apply last_None in Hl.
  - destruct (last (List.filter (fun c0 => cat_id c0 =? i) rows)); simpl;
      [done|]. by rewrite lookup_insert_ne.
Qed.

Lemma read_categories_run st :
  exists categories,
    read_categories st = (st, Return categories) /\
    forall i, categories !! i = label_of (category_rows st) i.
Proof.
  eexists. split; [reflexivity|].
  intros i. rewrite foldl_insert_lookup, lookup_empty.
  by destruct (label_of (category_rows st) i).
Qed.

Lemma len_zero_iff {A : Type} (l : list A) :
  (Py.len l =? 0) = true <-> l = [].
Proof.
  unfold Py.len. rewrite Z.eqb_eq. destruct l; simpl; [done|]. split; [lia|done].
Qed.

Lemma get_questions_run request st :
  exists categories,
    (forall i, categories !! i = label_of (category_rows st) i) /\
    get_questions request st =
    let selection := order_by_id (question_rows st) in
    let page := paginate_questions request selection in
    if Py.len page =? 0 then (st, Abort 404)
    else (st, Return {| Listing.success := true;
                        Listing.questions := page;
                        Listing.currentCategory := map category selection;
                        Listing.categories := categories;
                        Listing.total_questions :=
                          Py.len (question_rows st) |}).
Proof.
  destruct (read_categories_run st) as (categories & Hread & Hlookup).
  exists categories. split; [done|].
  unfold get_questions, bind at 1 2. cbn [Question_query_order_by_id].
  rewrite Hread. cbv zeta. unfold bind, when_.
  by destruct (Py.len _ =? 0).
Qed.

(** C7: GET /questions answers 404 exactly when the requested page
    (page 1 when none is given) of the id-ordered questions is empty;
    otherwise it leaves the store as it is and its payload holds that
    page, the number of all stored questions as total_questions, the
    category value of every question (in id order) and the map from each
    category id to its label. *)
Theorem get_questions_spec request st :
  let selection := order_by_id (question_rows st) in
  let page := paginate_questions request selection in
  (get_questions request st = (st, Abort 404) <-> page = []) /\
  (page <> [] ->
   exists payload,
     get_questions request st = (st, Return payload) /\
     Listing.success payload = true /\
     Listing.questions payload = page /\
     Listing.total_questions payload = Py.len (question_rows st) /\
     Listing.currentCategory payload = map category selection /\
     forall i, Listing.categories payload !! i
               = label_of (category_rows st) i).
Proof.
  intros selection page.
  destruct (get_questions_run request st) as (categories & Hlookup & Hrun).
  rewrite Hrun. cbv zeta. fold selection page. split.
  - rewrite <- len_zero_iff. destruct (Py.len page =? 0); [done|].
    split; [intros [=]|done].
  - intros Hne. eexists. split.
    + destruct (Py.len page =? 0) eqn:Hz; [|reflexivity].
      by apply len_zero_iff in Hz.
    + simpl. auto.
Qed.

(** C7 on a store of three questions. *)
Lemma get_questions_spec_witness :
  paginate_questions (request_page None)
    (order_by_id (question_rows (sample_store 3))) <> [] /\
  exists payload,
    get_questions (request_page None) (sample_store 3)
      = (sample_store 3, Return payload) /\
    Listing.total_questions payload = 3.
Proof.
  assert (paginate_questions (request_page None)
            (order_by_id (question_rows (sample_store 3))) <> []) as Hne
    by (vm_compute; discriminate).
  split; [exact Hne|].
  destruct (get_questions_spec (request_page None) (sample_store 3))
    as [_ Hok].
  destruct (Hok Hne) as (payload & Hrun & _ & _ & Htotal & _).
  exists payload. split; [exact Hrun|]. rewrite Htotal. reflexivity.
Defined.

End Reading.

(** ** GET /categories/<id>/questions *)
Section ByCategoryFacts.
Implicit Types (st : Store) (request : Request unit) (category_id : Z).

Lemma eq_value_Some (c : option Z) category_id :
  Sql.eq_value c (Some category_id) = true <-> c = Some category_id.
Proof.
  destruct c as [x|]; simpl; [|done].
  rewrite Z.eqb_eq. split; congruence.
Qed.

Lemma get_by_category_run request category_id st :
  get_by_category request category_id st =
  let selection :=
    List.filter (fun q => Sql.eq_value (category q) (Some category_id))
                (question_rows st) in
  if bool_decide (Some category_id ∉ map category (question_rows st))
  then (st, Abort 422)
  else (st, Return {| ByCategory.success := true;
                      ByCategory.questions :=
                        paginate_questions request selection;
                      ByCategory.currentCategory := category_id;
                      ByCategory.total_questions := Py.len selection |}).
Proof.
  unfold get_by_category, bind at 1. cbn [Question_query_all].
  unfold bind, when_.
  by destruct (bool_decide (Some category_id ∉ map category (question_rows st))).
Qed.

Lemma category_notin_iff category_id (rows : list Question) :
  Some category_id ∉ map category rows <->
  forall q, q ∈ rows -> category q <> Some category_id.
Proof.
  rewrite list_elem_of_In, in_map_iff. split.
  - intros Hno q Hq Hc. apply Hno. exists q. by rewrite <- list_elem_of_In.
  - intros Hall (q & Hc & Hq). by apply (Hall q); [apply list_elem_of_In|].
Qed.

(** C3 (as amended): GET /categories/{id}/questions answers 422 exactly
    when no stored question has that category value, whatever the
    category table holds; otherwise its questions list is the page,
    selected by the page argument (page 1 when none is given, ten
    questions a page), of the questions whose category equals the id, and
    total_questions is the number of all such questions. *)
Theorem get_by_category_spec request category_id st :
  let in_category :=
    List.filter (fun q => bool_decide (category q = Some category_id))
                (question_rows st) in
  (get_by_category request category_id st = (st, Abort 422) <->
   forall q, q ∈ question_rows st -> category q <> Some category_id) /\
  ((exists q, q ∈ question_rows st /\ category q = Some category_id) ->
   exists payload,
     get_by_category request category_id st = (st, Return payload) /\
     ByCategory.success payload = true /\
     ByCategory.currentCategory payload = category_id /\
     ByCategory.questions payload = paginate_questions request in_category /\
     (1 <= page_of request ->
      ByCategory.questions payload =
      take 10 (drop (Z.to_nat ((page_of request - 1) * 10))
                    (map format in_category))) /\
     ByCategory.total_questions payload = Py.len in_category).
Proof.
  intros in_category. rewrite get_by_category_run. cbv zeta.
  assert (List.filter (fun q => Sql.eq_value (category q) (Some category_id))
            (question_rows st) = in_category) as ->.
  { apply filter_ext. intros q. apply eq_true_iff_eq.
    by rewrite eq_value_Some, bool_decide_eq_true. }
  rewrite <- category_notin_iff.
  case_bool_decide as Hin; split.
  - done.
  - intros (q & Hq & Hc). exfalso.
    by apply (proj1 (category_notin_iff _ _) Hin q).
  - split; [intros [=]|done].
  - intros _. eexists. split; [reflexivity|]. simpl.
    repeat split. apply paginate_questions_from_page_1.
Qed.

(** C3 (as amended) on a store of three questions of category 1. *)
Lemma get_by_category_spec_witness :
  exists payload,
    get_by_category (request_page None) 1 (sample_store 3)
      = (sample_store 3, Return payload) /\
    map f_id (ByCategory.questions payload) = [1; 2; 3] /\
    ByCategory.total_questions payload = 3.
Proof.
  destruct (get_by_category_spec (request_page None) 1 (sample_store 3))
    as [_ Hok].
  destruct Hok as (payload & Hrun & _ & _ & Hq & _ & Htotal).
  { exists (sample_question 1). split; [|reflexivity].
    apply list_elem_of_here. }
  exists payload. split; [exact Hrun|].
  rewrite Hq, Htotal. split; reflexivity.
Defined.

(** C3 (as stated) fails on eleven questions of category 1: the request
    for category 1 succeeds with total_questions 11, yet its questions
    list is page 1 only; question 11, whose category is 1, is not
    returned. *)
Lemma get_by_category_returns_one_page :
  category (sample_question 11) = Some 1 /\
  sample_question 11 ∈ question_rows (sample_store 11) /\
  ByCategory.total_questions <$>
    payload_of (get_by_category (request_page None) 1 (sample_store 11))
    = Some 11 /\
  ByCategory.questions <$>
    payload_of (get_by_category (request_page None) 1 (sample_store 11))
    = Some (map format (sample_rows 10)) /\
  format (sample_question 11) ∉ map format (sample_rows 10).
Proof.
  split; [reflexivity|]. split; [vm_compute; repeat constructor|].
  split; [reflexivity|]. split; [reflexivity|].
  rewrite list_elem_of_In, in_map_iff. intros (q & Hf & Hq).
  apply in_map_iff in Hq as (i & <- & Hi).
  injection Hf as Hid. apply list_elem_of_In, elem_of_seqZ in Hi. lia.
Qed.

(** Category 2 has a row in the category table of the sample store and no
    question: the request for it answers 422. *)
Example get_by_category_without_questions :
  2 ∈ map cat_id (category_rows (sample_store 3)) /\
  get_by_category (request_page None) 2 (sample_store 3)
    = (sample_store 3, Abort 422).
Proof.
  split; [|reflexivity].
  apply (bool_decide_unpack _). vm_compute. reflexivity.
Qed.

End ByCategoryFacts.

(** ** LIKE patterns *)
Section Like.
Implicit Types (p s t : string) (c d : ascii).

Local Open Scope string_scope.

Lemma app_empty s : EmptyString ++ s = s.
Proof. reflexivity. Qed.

Lemma app_String c s t : String c s ++ t = String c (s ++ t).
Proof. reflexivity. Qed.

Lemma like_percent_unfold p s :
  Sql.like (String Sql.percent p) s =
  Sql.like p s ||
  match s with
  | EmptyString => false
  | String _ s' => Sql.like (String Sql.percent p) s'
  end.
Proof. by destruct s. Qed.

Lemma like_percent p s :
  Sql.like (String Sql.percent p) s = true <->
  exists pre suf, s = pre ++ suf /\ Sql.like p suf = true.
Proof.
  induction s as [|d s IH]; rewrite like_percent_unfold, orb_true_iff.
  - split.
    + intros [H|[=]]. by exists EmptyString, EmptyString.
    + intros (pre & suf & Hs & Hl). left.
      destruct pre; [|discriminate]. rewrite app_empty in Hs. by subst suf.
  - rewrite IH. split.
    + intros [H|(pre & suf & -> & Hl)].
      * by exists EmptyString, (String d s).
      * by exists (String d pre), suf.
    + intros (pre & suf & Hs & Hl). destruct pre as [|d' pre]; rewrite ?app_empty, ?app_String in Hs.
      * left. by subst suf.
      * right. injection Hs as -> ->. by exists pre, suf.
Qed.

Lemma like_percent_only s : Sql.like (String Sql.percent EmptyString) s = true.
Proof.
  apply like_percent. exists s, EmptyString. split; [|done].
  induction s; [done|]. rewrite app_String. by f_equal.
Qed.

Lemma like_plain_char c p s :
  plain_char c = true ->
  Sql.like (String c p) s =
  match s with
  | EmptyString => false
  | String d s' => Ascii.eqb c d && Sql.like p s'
  end.
Proof.
  unfold plain_char. rewrite !andb_true_iff, !negb_true_iff.
  intros [[Hp Hu] Hb]. simpl. by rewrite Hp, Hu, Hb.
Qed.

(** A pattern that starts with plain characters matches the texts that
    start with the same characters and go on to match the rest. *)
Lemma like_plain t p s :
  plain t = true ->
  Sql.like (t ++ p) s = true <->
  exists rest, s = t ++ rest /\ Sql.like p rest = true.
Proof.
  revert s. induction t as [|c t IH]; intros s Ht.
  - rewrite app_empty. split; [by exists s|]. by intros (rest & -> & Hl).
  - simpl in Ht. apply andb_true_iff in Ht as [Hc Ht].
    rewrite app_String.
    rewrite like_plain_char by done. destruct s as [|d s].
    + split; [done|]. by intros (rest & [=] & _).
    + rewrite andb_true_iff, Ascii.eqb_eq, (IH s Ht). split.
      * intros [-> (rest & -> & Hl)]. by exists rest.
      * intros (rest & Hs & Hl). injection Hs as -> ->. eauto.
Qed.

Lemma starts_with_iff s t :
  starts_with s t = true <-> exists rest, s = t ++ rest.
Proof.
  revert s. induction t as [|c t IH]; intros s; simpl.
  - split; [by exists s|done].
  - destruct s as [|d s].
    + split; [done|]. by intros (rest & [=]).
    + rewrite andb_true_iff, Ascii.eqb_eq, IH. split.
      * intros [-> (rest & ->)]. by exists rest.
      * intros (rest & Hs). injection Hs as -> ->. eauto.
Qed.

Lemma contains_iff s t :
  contains s t = true <-> exists pre rest, s = pre ++ (t ++ rest).
Proof.
  induction s as [|d s IH]; simpl; rewrite orb_true_iff, starts_with_iff.
  - split.
    + intros [(rest & Hs)|[=]]. by exists EmptyString, rest.
    + intros (pre & rest & Hs). left.
      destruct pre; [|discriminate]. by exists rest.
  - rewrite IH. split.
    + intros [(rest & Hs)|(pre & rest & ->)].
      * by exists EmptyString, rest.
      * by exists (String d pre), rest.
    + intros (pre & rest & Hs). destruct pre as [|d' pre]; rewrite ?app_empty, ?app_String in Hs.
      * left. by exists rest.
      * right. injection Hs as -> ->. by exists pre, rest.
Qed.

(** For a plain term, [LIKE '%term%'] is containment. *)
Lemma like_contains t s :
  plain t = true ->
  Sql.like (String Sql.percent (t ++ String Sql.percent EmptyString)) s
  = contains s t.
Proof.
  intros Ht. apply eq_true_iff_eq.
  rewrite like_percent, contains_iff. split.
  - intros (pre & suf & -> & Hl).
    apply like_plain in Hl as (rest & -> & _); [|done]. by exists pre, rest.
  - intros (pre & rest & ->). exists pre, (t ++ rest). split; [done|].
    apply like_plain; [done|]. exists rest. split; [done|].
    apply like_percent_only.
Qed.

Lemma lower_app s t : Sql.lower (s ++ t) = Sql.lower s ++ Sql.lower t.
Proof.
  induction s as [|c s IH]; [done|].
  rewrite app_String. simpl. rewrite app_String. by f_equal.
Qed.

Lemma lower_ascii_plain c :
  plain_char c = true -> plain_char (Sql.lower_ascii c) = true.
Proof.
  destruct c as [[] [] [] [] [] [] [] []]; vm_compute; congruence.
Qed.

Lemma lower_plain t : plain t = true -> plain (Sql.lower t) = true.
Proof.
  induction t as [|c t IH]; simpl; [done|].
  rewrite !andb_true_iff. intros [Hc Ht].
  split; [by apply lower_ascii_plain|by apply IH].
Qed.

(** The filter of [search_question] is the case-insensitive containment
    match when the term has no wildcard in it. *)
Lemma ilike_contains_ci (text : option string) t :
  plain t = true ->
  Sql.ilike text (search_pattern t) = contains_ci text t.
Proof.
  intros Ht. destruct text as [s|]; [|done].
  unfold Sql.ilike, search_pattern, contains_ci.
  change (Sql.lower (String Sql.percent (t ++ String Sql.percent EmptyString)))
    with (String Sql.percent
            (Sql.lower (t ++ String Sql.percent EmptyString))).
  rewrite lower_app. by apply like_contains, lower_plain.
Qed.

End Like.

(** ** POST /search *)
Section SearchFacts.
Implicit Types (st : Store) (request : Request SearchBody) (term : string).

Lemma search_question_run request st :
  search_question request st =
  match Py.get (searchTerm (get_json request)) with
  | None => (st, Abort 422)
  | Some EmptyString => (st, Abort 422)
  | Some term =>
      let selection :=
        List.filter (fun q => Sql.ilike (question q) (search_pattern term))
                    (question_rows st) in
      (st, Return {| Search.success := true;
                     Search.questions := paginate_questions request selection;
                     Search.currentCategory := map category selection;
                     Search.total_questions := Py.len selection |})
  end.
Proof.
  unfold search_question.
  destruct (Py.get (searchTerm (get_json request))) as [[|c term]|]; done.
Qed.

(** C4 (as amended): POST /search answers 422 exactly when searchTerm is
    missing (absent or null) or the empty string; otherwise, for an ASCII
    search term with none of the characters %, _ and backslash in it, on
    a store whose question texts are ASCII, the questions list is the
    page, selected by the page argument (page 1 when none is given, ten
    questions a page), of the questions whose text contains the term as a
    case-insensitive substring, and total_questions is the number of all
    those questions. *)
Theorem search_question_spec request st :
  let search_term := Py.get (searchTerm (get_json request)) in
  (search_question request st = (st, Abort 422) <->
   search_term = None \/ search_term = Some EmptyString) /\
  (forall term,
     search_term = Some term -> term <> EmptyString -> plain term = true ->
     ascii_string term = true -> ascii_texts (question_rows st) = true ->
     let matching :=
       List.filter (fun q => contains_ci (question q) term)
                   (question_rows st) in
     exists payload,
       search_question request st = (st, Return payload) /\
       Search.success payload = true /\
       Search.questions payload = paginate_questions request matching /\
       (1 <= page_of request ->
        Search.questions payload =
        take 10 (drop (Z.to_nat ((page_of request - 1) * 10))
                      (map format matching))) /\
       Search.total_questions payload = Py.len matching).
Proof.
  intros search_term. rewrite search_question_run. fold search_term. split.
  - destruct search_term as [[|c term]|]; split; try done; auto.
    intros [[=]|[=]].
  - intros term -> Hne Hplain _ _ matching.
    assert (List.filter
              (fun q => Sql.ilike (question q) (search_pattern term))
              (question_rows st) = matching) as Hsel.
    { apply filter_ext. intros q. by apply ilike_contains_ci. }
    destruct term as [|c term]; [done|]. cbv zeta. rewrite Hsel.
    eexists. split; [reflexivity|]. simpl.
    repeat split. apply paginate_questions_from_page_1.
Qed.

(** C4 (as amended): searching "capital" among three questions. *)
Lemma search_question_spec_witness :
  exists payload,
    search_question (search_request None (Py.Value "capital"%string))
                    (sample_store 3)
      = (sample_store 3, Return payload) /\
    map f_id (Search.questions payload) = [1; 2; 3] /\
    Search.total_questions payload = 3.
Proof.
  destruct (search_question_spec
              (search_request None (Py.Value "capital"%string))
              (sample_store 3)) as [_ Hok].
  destruct (Hok "capital"%string) as (payload & Hrun & _ & Hq & _ & Htotal);
    [reflexivity|discriminate|reflexivity|reflexivity|reflexivity|].
  exists payload. split; [exact Hrun|].
  rewrite Hq, Htotal. split; reflexivity.
Defined.

(** C4 (as stated) fails on eleven questions that all read "What is the
    Capital": the search for "capital" succeeds with total_questions 11,
    yet its questions list is page 1 only; question 11, whose text
    contains the term, is not in it. *)
Lemma search_question_returns_one_page :
  contains_ci (question (sample_question 11)) "capital" = true /\
  sample_question 11 ∈ question_rows (sample_store 11) /\
  Search.total_questions <$>
    payload_of (search_question
                  (search_request None (Py.Value "capital"%string))
                  (sample_store 11))
    = Some 11 /\
  Search.questions <$>
    payload_of (search_question
                  (search_request None (Py.Value "capital"%string))
                  (sample_store 11))
    = Some (map format (sample_rows 10)) /\
  format (sample_question 11) ∉ map format (sample_rows 10).
Proof.
  split; [reflexivity|]. split; [vm_compute; repeat constructor|].
  split; [reflexivity|]. split; [reflexivity|].
  rewrite list_elem_of_In, in_map_iff. intros (q & Hf & Hq).
  apply in_map_iff in Hq as (i & <- & Hi).
  injection Hf as Hid. apply list_elem_of_In, elem_of_seqZ in Hi. lia.
Qed.

(** Searching the empty string answers 422. *)
Example search_empty_term :
  search_question (search_request None (Py.Value EmptyString))
                  (sample_store 3)
    = (sample_store 3, Abort 422).
Proof. reflexivity. Qed.

(** A wildcard in the term is read as a wildcard: the term "_" selects a
    question whose text has no underscore in it. *)
Example search_underscore_is_a_wildcard :
  Sql.ilike (Some "What is the Capital"%string) (search_pattern "_") = true /\
  contains_ci (Some "What is the Capital"%string) "_" = false.
Proof. split; reflexivity. Qed.

(** C10: the questions list of a successful POST /search is the slice of
    the matching questions that the page argument selects (page 1 when
    none is given): it never holds more than ten questions, from page 1 on
    it is the run of ten after the (p-1)*10 matches before it, so that the
    other matches are left out, and total_questions counts all matches. *)
Theorem search_question_paginated request st term :
  Py.get (searchTerm (get_json request)) = Some term ->
  term <> EmptyString ->
  let matching :=
    List.filter (fun q => Sql.ilike (question q) (search_pattern term))
                (question_rows st) in
  exists payload,
    search_question request st = (st, Return payload) /\
    Search.questions payload =
      Py.slice (map format matching)
               ((page_of request - 1) * 10) (page_of request * 10) /\
    (args_page request = None -> page_of request = 1) /\
    Py.len (Search.questions payload) <= 10 /\
    (1 <= page_of request ->
     Search.questions payload =
     take 10 (drop (Z.to_nat ((page_of request - 1) * 10))
                   (map format matching))) /\
    Search.total_questions payload = Py.len matching.
Proof.
  intros Hterm Hne matching. rewrite search_question_run, Hterm.
  destruct term as [|c term]; [done|]. cbv zeta. fold matching.
  eexists. split; [reflexivity|]. simpl. split; [|split; [|split; [|split]]].
  - apply paginate_questions_slice.
  - unfold page_of. by intros ->.
  - apply paginate_questions_at_most_10.
  - apply paginate_questions_from_page_1.
  - done.
Qed.

(** C10 on eleven matches: ten are listed, eleven are counted. *)
Lemma search_question_paginated_witness :
  exists payload,
    search_question (search_request None (Py.Value "capital"%string))
                    (sample_store 11)
      = (sample_store 11, Return payload) /\
    map f_id (Search.questions payload) = [1; 2; 3; 4; 5; 6; 7; 8; 9; 10] /\
    Search.total_questions payload = 11.
Proof.
  destruct (search_question_paginated
              (search_request None (Py.Value "capital"%string))
              (sample_store 11) "capital"%string)
    as (payload & Hrun & Hq & _ & _ & _ & Htotal);
    [reflexivity|discriminate|].
  exists payload. split; [exact Hrun|].
  rewrite Hq, Htotal. split; reflexivity.
Defined.

End SearchFacts.

(** ** POST /questions *)
Section PostFacts.
Implicit Types (st : Store) (request : Request PostBody).

Lemma is_empty_str_true (v : option string) :
  is_empty_str v = true <-> v = Some EmptyString.
Proof. destruct v as [[|c s]|]; simpl; split; congruence. Qed.

Lemma post_question_run request st :
  post_question request st =
  let body := get_json request in
  let new_question := Py.get (body_question body) in
  let new_answer := Py.get (body_answer body) in
  if is_empty_str new_question || is_empty_str new_answer
  then (st, Abort 422)
  else
    let inserted := insert new_question new_answer
                      (Py.get (body_category body))
                      (Py.get (body_difficulty body)) st in
    (fst inserted,
     Return {| Created.success := true;
               Created.created := id (snd inserted);
               Created.questions :=
                 paginate_questions request
                   (order_by_id (question_rows (fst inserted)));
               Created.total_questions :=
                 Py.len (question_rows (fst inserted)) |}).
Proof.
  unfold post_question. cbv zeta. unfold bind at 1, when_.
  by destruct (is_empty_str _ || is_empty_str _).
Qed.

(** The 422 of POST /questions is the empty-string check and nothing
    else. *)
Lemma post_question_422_iff request st :
  post_question request st = (st, Abort 422) <->
  Py.get (body_question (get_json request)) = Some EmptyString \/
  Py.get (body_answer (get_json request)) = Some EmptyString.
Proof.
  rewrite post_question_run. cbv zeta.
  rewrite <- !is_empty_str_true, <- orb_true_iff.
  destruct (is_empty_str _ || is_empty_str _); [done|].
  split; [intros [=]|done].
Qed.

(** C5: POST /questions answers 422 when the question or the answer is
    the empty string, and then leaves the store as it was, the check
    coming before the insert.  Otherwise, on a store whose ids are
    distinct and behind the id sequence, the record built from (question,
    answer, category, difficulty) is appended to the table under an id no
    stored question has, the payload carries that id as created, and the
    id-ordered listing of all questions holds that record exactly once. *)
Theorem post_question_spec request st :
  let body := get_json request in
  let new_question := Py.get (body_question body) in
  let new_answer := Py.get (body_answer body) in
  (new_question = Some EmptyString \/ new_answer = Some EmptyString ->
   post_question request st = (st, Abort 422)) /\
  (new_question <> Some EmptyString -> new_answer <> Some EmptyString ->
   store_ok st ->
   exists st' payload,
     post_question request st = (st', Return payload) /\
     let record := {| id := Created.created payload;
                      question := new_question;
                      answer := new_answer;
                      category := Py.get (body_category body);
                      difficulty := Py.get (body_difficulty body) |} in
     Created.success payload = true /\
     (Created.created payload ∉ map id (question_rows st)) /\
     question_rows st' = question_rows st ++ [record] /\
     category_rows st' = category_rows st /\
     store_ok st' /\
     ascending (order_by_id (question_rows st')) /\
     Permutation (order_by_id (question_rows st')) (question_rows st') /\
     List.filter (fun q => id q =? Created.created payload)
                 (order_by_id (question_rows st')) = [record] /\
     Created.total_questions payload = Py.len (question_rows st) + 1).
Proof.
  intros body new_question new_answer. split.
  - intros Hempty. by apply post_question_422_iff.
  - intros Hq Ha Hok. rewrite post_question_run. cbv zeta.
    fold body new_question new_answer.
    rewrite <- is_empty_str_true in Hq, Ha.
    apply not_true_is_false in Hq, Ha. rewrite Hq, Ha. simpl.
    destruct Hok as [Hnd Hlt].
    assert (question_id_seq st ∉ map id (question_rows st)) as Hfresh.
    { intros Hin. apply list_elem_of_In, in_map_iff in Hin as (x & Hx & Hin).
      rewrite Forall_forall in Hlt. apply list_elem_of_In in Hin.
      specialize (Hlt x Hin). simpl in Hlt. lia. }
    do 2 eexists. split; [reflexivity|]. simpl.
    split; [done|]. split; [done|]. split; [done|]. split; [done|].
    split; [by apply (insert_store_ok st)|].
    split; [apply order_by_id_ascending|].
    split; [apply order_by_id_perm|]. split.
    + apply filter_singleton_order_by_id.
      rewrite List.filter_app, filter_id_absent by done. simpl.
      by rewrite Z.eqb_refl.
    + unfold Py.len. rewrite length_app. simpl. lia.
Qed.

(** C5: posting a question to a store of three. *)
Lemma post_question_spec_witness :
  exists st' payload,
    post_question
      (post_request (Py.Value "Q"%string) (Py.Value "A"%string)
                    (Py.Value 1) (Py.Value 2))
      (sample_store 3) = (st', Return payload) /\
    Created.created payload = 4 /\
    map id (order_by_id (question_rows st')) = [1; 2; 3; 4].
Proof.
  destruct (post_question_spec
              (post_request (Py.Value "Q"%string) (Py.Value "A"%string)
                            (Py.Value 1) (Py.Value 2))
              (sample_store 3)) as [_ Hok].
  destruct Hok as (st' & payload & Hrun & _); [discriminate|discriminate| |].
  { unfold store_ok. apply (bool_decide_unpack _). vm_compute. reflexivity. }
  exists st', payload. split; [exact Hrun|].
  injection Hrun as <- <-. split; reflexivity.
Defined.

(** C9: POST /questions answers 422 only for a question or an answer that
    is the empty string.  A body whose question (or answer) is absent or
    null passes the check, unless the other of the two is the empty
    string, and the handler inserts a record whose question (or answer)
    text is null. *)
Theorem post_question_null_text request st :
  let body := get_json request in
  let new_question := Py.get (body_question body) in
  let new_answer := Py.get (body_answer body) in
  (post_question request st = (st, Abort 422) <->
   new_question = Some EmptyString \/ new_answer = Some EmptyString) /\
  ((new_question = None /\ new_answer <> Some EmptyString) \/
   (new_answer = None /\ new_question <> Some EmptyString) ->
   exists st' payload,
     post_question request st = (st', Return payload) /\
     question_rows st' =
       question_rows st ++
       [ {| id := Created.created payload;
            question := new_question;
            answer := new_answer;
            category := Py.get (body_category body);
            difficulty := Py.get (body_difficulty body) |} ]).
Proof.
  intros body new_question new_answer. split.
  - apply post_question_422_iff.
  - intros Hnull. rewrite post_question_run. cbv zeta.
    fold body new_question new_answer.
    assert ((is_empty_str new_question || is_empty_str new_answer) = false)
      as ->.
    { apply orb_false_iff.
      split; apply not_true_is_false; rewrite is_empty_str_true;
        destruct Hnull as [[Hn Ha]|[Hn Hq]]; congruence. }
    do 2 eexists. split; reflexivity.
Qed.

(** C9: a body without a question, and one whose answer is null. *)
Lemma post_question_null_text_witness :
  (exists st' payload,
     post_question
       (post_request Py.Absent (Py.Value "A"%string) (Py.Value 1) (Py.Value 2))
       (sample_store 3) = (st', Return payload) /\
     question <$> last (question_rows st') = Some None) /\
  (exists st' payload,
     post_question
       (post_request (Py.Value "Q"%string) Py.Null (Py.Value 1) (Py.Value 2))
       (sample_store 3) = (st', Return payload) /\
     answer <$> last (question_rows st') = Some None).
Proof.
  split.
  - destruct (post_question_null_text
                (post_request Py.Absent (Py.Value "A"%string)
                              (Py.Value 1) (Py.Value 2))
                (sample_store 3)) as [_ Hok].
    destruct Hok as (st' & payload & Hrun & Hrows).
    { left. split; [reflexivity|discriminate]. }
    exists st', payload. split; [exact Hrun|]. by rewrite Hrows, last_snoc.
  - destruct (post_question_null_text
                (post_request (Py.Value "Q"%string) Py.Null
                              (Py.Value 1) (Py.Value 2))
                (sample_store 3)) as [_ Hok].
    destruct Hok as (st' & payload & Hrun & Hrows).
    { right. split; [reflexivity|discriminate]. }
    exists st', payload. split; [exact Hrun|]. by rewrite Hrows, last_snoc.
Defined.

End PostFacts.

(** ** DELETE /questions/<id> *)
Section DeleteFacts.
Implicit Types (st : Store) (request : Request unit) (question_id : Z).

Lemma delete_question_run request question_id st :
  delete_question request question_id st =
  match one_or_none (List.filter (fun q => id q =? question_id)
                                 (question_rows st)) with
  | None => (st, Abort 500)
  | Some None => (st, Abort 404)
  | Some (Some q) =>
      (delete q st,
       Return {| Deleted.success := true;
                 Deleted.deleted := question_id;
                 Deleted.questions :=
                   paginate_questions request
                     (order_by_id (question_rows (delete q st)));
                 Deleted.total_questions :=
                   Py.len (question_rows (delete q st)) |})
  end.
Proof.
  unfold delete_question, bind at 1. cbn [Question_query_filter].
  by destruct (one_or_none _) as [[q|]|].
Qed.

Lemma filter_id_nil_iff question_id (rows : list Question) :
  List.filter (fun q => id q =? question_id) rows = [] <->
  question_id ∉ map id rows.
Proof.
  split; [|apply filter_id_absent].
  rewrite filter_nil_iff. intros Hall Hin.
  apply list_elem_of_In, in_map_iff in Hin as (q & Hid & Hq).
  apply list_elem_of_In, Hall in Hq. rewrite Hid, Z.eqb_refl in Hq. done.
Qed.

Lemma delete_question_404_iff request question_id st :
  delete_question request question_id st = (st, Abort 404) <->
  question_id ∉ map id (question_rows st).
Proof.
  rewrite delete_question_run, <- filter_id_nil_iff.
  destruct (List.filter _ _) as [|q [|q' l]]; simpl; [done| |].
  - split; [intros [=]|done].
  - split; [intros [=]|done].
Qed.

(** What a request leaves in the store. *)
Lemma call_store c st :
  call c st = st \/
  (exists a b d e, call c st = fst (insert a b d e st)) \/
  (exists q, call c st = delete q st).
Proof.
  destruct c as [request|request question_id]; simpl.
  - rewrite post_question_run. cbv zeta.
    destruct (is_empty_str _ || is_empty_str _); [by left|].
    right. left. simpl. eauto.
  - rewrite delete_question_run.
    destruct (one_or_none _) as [[q|]|]; simpl; eauto.
Qed.

Lemma call_retired i c st : retired i st -> retired i (call c st).
Proof.
  intros (Hok & Hseq & Hnotin).
  destruct (call_store c st) as [->|[(a & b & d & e & ->)|(q & ->)]].
  - done.
  - split; [by apply insert_store_ok|]. simpl. split; [lia|].
    rewrite map_app. simpl. rewrite elem_of_app, list_elem_of_singleton.
    intros [?|?]; [done|lia].
  - split; [by apply delete_store_ok|]. simpl. split; [done|].
    intros Hin. apply Hnotin.
    apply list_elem_of_In, in_map_iff in Hin as (x & Hx & Hin).
    apply filter_In in Hin as [Hin _].
    rewrite <- Hx. by apply list_elem_of_In, in_map.
Qed.

Lemma after_retired i calls st : retired i st -> retired i (after calls st).
Proof.
  revert st. induction calls as [|c calls IH]; intros st Hr; simpl; [done|].
  by apply IH, call_retired.
Qed.

(** The ids on a page are ids of stored questions. *)
Lemma page_ids {B : Type} (r : Request B) (rows : list Question) i :
  i ∈ map f_id (paginate_questions r (order_by_id rows)) -> i ∈ map id rows.
Proof.
  intros Hin. apply list_elem_of_In, in_map_iff in Hin as (f & Hf & Hin).
  apply list_elem_of_In, paginate_questions_formatted in Hin
    as (q & Hq & ->).
  rewrite order_by_id_elem_of in Hq. subst i.
  change (f_id (format q)) with (id q).
  by apply list_elem_of_In, (in_map id), list_elem_of_In.
Qed.

Lemma get_questions_ids request st payload i :
  payload_of (get_questions request st) = Some payload ->
  i ∈ map f_id (Listing.questions payload) -> i ∈ map id (question_rows st).
Proof.
  destruct (get_questions_run request st) as (categories & _ & ->).
  cbv zeta. destruct (Py.len _ =? 0); simpl; [done|].
  intros [= <-]. simpl. apply page_ids.
Qed.

(** C6: DELETE /questions/{id} answers 404 exactly when no stored
    question has that id, and then leaves the store as it was.  When a
    question has that id, in a store whose ids are distinct and behind the
    id sequence, exactly one record is removed, the one with that id, the
    payload echoes the id as deleted, and no later listing shows the
    question: neither the one in the response nor any GET /questions
    after any further posts and deletes. *)
Theorem delete_question_spec request question_id st :
  (delete_question request question_id st = (st, Abort 404) <->
   question_id ∉ map id (question_rows st)) /\
  (store_ok st -> question_id ∈ map id (question_rows st) ->
   exists st' payload,
     delete_question request question_id st = (st', Return payload) /\
     Deleted.success payload = true /\
     Deleted.deleted payload = question_id /\
     (length (question_rows st') + 1 = length (question_rows st))%nat /\
     (forall q, q ∈ question_rows st' <->
                q ∈ question_rows st /\ id q <> question_id) /\
     category_rows st' = category_rows st /\
     Deleted.total_questions payload = Py.len (question_rows st) - 1 /\
     (question_id ∉ map f_id (Deleted.questions payload)) /\
     forall calls,
       (question_id ∉ map id (question_rows (after calls st'))) /\
       forall request' payload',
         payload_of (get_questions request' (after calls st'))
           = Some payload' ->
         question_id ∉ map f_id (Listing.questions payload')).
Proof.
  split; [apply delete_question_404_iff|].
  intros Hok Hin.
  apply list_elem_of_In, in_map_iff in Hin as (q & <- & Hq).
  apply list_elem_of_In in Hq.
  rewrite delete_question_run, (filter_id_unique _ q) by (done || apply Hok).
  simpl. do 2 eexists. split; [reflexivity|]. simpl.
  pose proof (filter_length_split (fun x => id x =? id q) (question_rows st))
    as Hlen.
  rewrite (filter_id_unique _ q) in Hlen by (done || apply Hok).
  simpl in Hlen.
  assert (retired (id q) (delete q st)) as Hret.
  { split; [by apply delete_store_ok|]. split; [|apply delete_removes].
    simpl. destruct Hok as [_ Hlt]. rewrite Forall_forall in Hlt.
    by apply Hlt. }
  split; [done|]. split; [done|]. split; [lia|]. split.
  { intros x. rewrite !list_elem_of_In, filter_In, negb_true_iff, Z.eqb_neq.
    done. }
  split; [done|]. split; [unfold Py.len; simpl; lia|]. split.
  { intros Hin. by apply page_ids, delete_removes in Hin. }
  intros calls.
  pose proof (after_retired (id q) calls _ Hret) as (_ & _ & Hnotin).
  split; [done|]. intros request' payload' Hp Hin.
  by apply (get_questions_ids _ _ _ _ Hp) in Hin.
Qed.

(** C6: deleting question 2 of three, then looking at the listing. *)
Lemma delete_question_spec_witness :
  exists st' payload,
    delete_question (request_page None) 2 (sample_store 3)
      = (st', Return payload) /\
    map id (question_rows st') = [1; 3] /\
    Deleted.deleted payload = 2.
Proof.
  destruct (delete_question_spec (request_page None) 2 (sample_store 3))
    as [_ Hok].
  destruct Hok as (st' & payload & Hrun & _ & Hdel & _);
    [unfold store_ok; apply (bool_decide_unpack _); vm_compute; reflexivity
    |apply (bool_decide_unpack _); vm_compute; reflexivity|].
  exists st', payload. split; [exact Hrun|]. split; [|exact Hdel].
  injection Hrun as <- _. reflexivity.
Defined.

End DeleteFacts.

(** ** POST /quizzes *)
Section QuizFacts.
Variable randrange : Z -> Z -> Z.
Implicit Types (st : Store) (request : Request QuizBody).
Implicit Types (previous : list Z) (c : QuizCategory).

Lemma eq_value_iff (col v : option Z) : Sql.eq_value col v = true <-> col = v.
Proof.
  destruct col as [x|], v as [y|]; simpl; try (split; congruence).
  rewrite Z.eqb_eq. split; congruence.
Qed.

(** The two queries of [quiz] select the candidates of the spec. *)
Lemma quiz_selection previous (category_id : option Z) rows :
  (if bool_decide (category_id = Some 0)
   then List.filter (id_notin previous) rows
   else List.filter (fun q => Sql.eq_value (category q) category_id
                              && id_notin previous q) rows)
  = quiz_candidates previous category_id rows.
Proof.
  unfold quiz_candidates, id_notin.
  case_bool_decide as H0; apply filter_ext; intros q.
  - by rewrite (bool_decide_eq_true_2 (_ \/ _)) by auto.
  - f_equal. apply eq_true_iff_eq.
    rewrite eq_value_iff, bool_decide_eq_true.
    split; [auto|]. intros [?|?]; [congruence|done].
Qed.

Lemma quiz_run request st :
  quiz randrange request st =
  let body := get_json request in
  match Py.get (previous_questions body), Py.get (quiz_category body) with
  | Some previous, Some c =>
      let candidates :=
        quiz_candidates previous
          (Py.get_default (quiz_category_id_field c) 0) (question_rows st) in
      if Py.len candidates >? 0 then
        match Py.getitem candidates (randrange 0 (Py.len candidates)) with
        | None => (st, Abort 500)
        | Some q => (st, Return {| Quiz.success := true;
                                   Quiz.question := Some (format q) |})
        end
      else (st, Return {| Quiz.success := true; Quiz.question := None |})
  | _, _ => (st, Abort 422)
  end.
Proof.
  unfold quiz. cbv zeta.
  destruct (Py.get (previous_questions _)) as [previous|]; [|done].
  destruct (Py.get (quiz_category _)) as [c|]; [|done].
  rewrite <- quiz_selection. unfold bind.
  destruct (bool_decide _); cbn [Question_query_filter];
    destruct (Py.len _ >? 0); try done;
    by destruct (Py.getitem _ _).
Qed.

Lemma getitem_in_range {A : Type} (l : list A) i :
  0 <= i < Py.len l -> Py.getitem l i = l !! Z.to_nat i /\ is_Some (l !! Z.to_nat i).
Proof.
  unfold Py.getitem, Py.len. intros Hi.
  destruct (Z.ltb_spec i 0); [lia|]. split; [done|].
  apply lookup_lt_is_Some. lia.
Qed.

(** The candidates for category id 0 are the questions not yet asked,
    of every category. *)
Lemma quiz_candidates_any_category previous (rows : list Question) :
  quiz_candidates previous (Some 0) rows
  = List.filter (fun q => bool_decide (id q ∉ previous)) rows.
Proof.
  unfold quiz_candidates. apply filter_ext. intros q.
  by rewrite (bool_decide_eq_true_2 (_ \/ _)) by auto.
Qed.

(** C8: POST /quizzes answers 422 exactly when previous_questions or
    quiz_category is missing (absent or null) from the body.  A
    quiz_category object without an id key is accepted and treated as
    id 0, any category: the answer is not 422, it is the answer to the
    same request with id 0, and it is taken from the stored questions of
    every category whose id is not in previous_questions: question null
    when there is none, and otherwise the formatted one at the index that
    [random.randrange(0, their number)] returns. *)
Theorem quiz_422_iff request st :
  let body := get_json request in
  (quiz randrange request st = (st, Abort 422) <->
   Py.get (previous_questions body) = None \/
   Py.get (quiz_category body) = None) /\
  (forall previous c,
     Py.get (previous_questions body) = Some previous ->
     Py.get (quiz_category body) = Some c ->
     quiz_category_id_field c = Py.Absent ->
     let unseen :=
       List.filter (fun q => bool_decide (id q ∉ previous))
                   (question_rows st) in
     quiz randrange request st <> (st, Abort 422) /\
     quiz randrange request st =
       quiz randrange
         (mkRequest (args_page request)
            {| previous_questions := Py.Value previous;
               quiz_category :=
                 Py.Value {| quiz_category_id_field := Py.Value 0 |} |}) st /\
     (unseen = [] ->
      quiz randrange request st
      = (st, Return {| Quiz.success := true; Quiz.question := None |})) /\
     (0 <= randrange 0 (Py.len unseen) < Py.len unseen ->
      exists q,
        unseen !! Z.to_nat (randrange 0 (Py.len unseen)) = Some q /\
        quiz randrange request st
        = (st, Return {| Quiz.success := true;
                         Quiz.question := Some (format q) |}))).
Proof.
  intros body. split.
  - rewrite quiz_run. cbv zeta. fold body.
    destruct (Py.get (previous_questions body)) as [previous|];
      [|split; auto].
    destruct (Py.get (quiz_category body)) as [c|]; [|split; auto].
    split; [|by intros [|]].
    destruct (Py.len _ >? 0); [|intros [=]].
    by destruct (Py.getitem _ _).
  - intros previous c Hprev Hcat Hid unseen.
    rewrite !quiz_run. cbv zeta. fold body. rewrite Hprev, Hcat, Hid. simpl.
    rewrite quiz_candidates_any_category. fold unseen.
    split; [|split; [done|split]].
    + destruct (Py.len unseen >? 0); [|intros [=]].
      by destruct (Py.getitem _ _).
    + by intros ->.
    + intros Hr. destruct (getitem_in_range unseen _ Hr) as [Hget [q Hq]].
      exists q. split; [done|].
      destruct (Z.gtb_spec (Py.len unseen) 0); [|lia].
      by rewrite Hget, Hq.
Qed.

End QuizFacts.

(** C8: a quiz request whose category object has no id, on three
    questions of category 1 of which the first has been asked: the
    second is returned, as for id 0. *)
Lemma quiz_422_iff_witness :
  quiz lowest
    (quiz_request (Py.Value [1])
       (Py.Value {| quiz_category_id_field := Py.Absent |}))
    (sample_store 3)
  = (sample_store 3,
     Return {| Quiz.success := true;
               Quiz.question := Some (format (sample_question 2)) |}) /\
  quiz lowest
    (quiz_request (Py.Value [1])
       (Py.Value {| quiz_category_id_field := Py.Absent |}))
    (sample_store 3)
  = quiz lowest
      (quiz_request (Py.Value [1])
         (Py.Value {| quiz_category_id_field := Py.Value 0 |}))
      (sample_store 3).
Proof.
  destruct (quiz_422_iff lowest
              (quiz_request (Py.Value [1])
                 (Py.Value {| quiz_category_id_field := Py.Absent |}))
              (sample_store 3)) as [_ Hok].
  destruct (Hok [1] {| quiz_category_id_field := Py.Absent |}
                eq_refl eq_refl eq_refl) as (_ & Heq & _ & Hdraw).
  split; [|exact Heq].
  destruct Hdraw as (q & Hq & Hrun);
    [vm_compute; split; [discriminate|reflexivity]|].
  assert (q = sample_question 2) as ->
    by (vm_compute in Hq; by injection Hq).
  exact Hrun.
Defined.

Section QuizDraw.
Variable randrange : Z -> Z -> Z.

(** [random.randrange(0, n)] returns an index below [n]. *)
Hypothesis randrange_in_range :
  forall n, 0 < n -> 0 <= randrange 0 n < n.

Implicit Types (st : Store) (request : Request QuizBody).

Lemma quiz_candidates_elem_of previous (category_id : option Z) rows q :
  q ∈ quiz_candidates previous category_id rows <->
  q ∈ rows /\ (id q ∉ previous) /\
  (category_id = Some 0 \/ category q = category_id).
Proof.
  unfold quiz_candidates.
  rewrite list_elem_of_In, filter_In, andb_true_iff, !bool_decide_eq_true.
  rewrite <- list_elem_of_In. tauto.
Qed.

(** C2: for a POST /quizzes request that carries previous_questions and
    quiz_category, the candidates are exactly the stored questions whose id
    is not in previous_questions, restricted to the given category unless
    its id is 0 (0 also when the id key is absent).  With no candidate the
    answer is success with question null.  Otherwise the answer is the
    formatted candidate at the index that [random.randrange(0, number of
    candidates)] draws, uniform over the indices; with a single candidate
    that is this candidate whatever the draw. *)
Theorem quiz_spec request st previous c :
  Py.get (previous_questions (get_json request)) = Some previous ->
  Py.get (quiz_category (get_json request)) = Some c ->
  let category_id := Py.get_default (quiz_category_id_field c) 0 in
  let candidates :=
    quiz_candidates previous category_id (question_rows st) in
  (forall q,
     q ∈ candidates <->
     q ∈ question_rows st /\ (id q ∉ previous) /\
     (category_id = Some 0 \/ category q = category_id)) /\
  (candidates = [] ->
   quiz randrange request st
   = (st, Return {| Quiz.success := true; Quiz.question := None |})) /\
  (candidates <> [] ->
   exists q,
     candidates !! Z.to_nat (randrange 0 (Py.len candidates)) = Some q /\
     0 <= randrange 0 (Py.len candidates) < Py.len candidates /\
     quiz randrange request st
     = (st, Return {| Quiz.success := true;
                      Quiz.question := Some (format q) |})) /\
  (forall q,
     candidates = [q] ->
     quiz randrange request st
     = (st, Return {| Quiz.success := true;
                      Quiz.question := Some (format q) |}) /\
     f_id (format q) = id q).
Proof.
  intros Hprev Hcat category_id candidates.
  assert (candidates <> [] ->
          exists q,
            candidates !! Z.to_nat (randrange 0 (Py.len candidates)) = Some q /\
            0 <= randrange 0 (Py.len candidates) < Py.len candidates /\
            quiz randrange request st
            = (st, Return {| Quiz.success := true;
                             Quiz.question := Some (format q) |})) as Hdraw.
  { intros Hne. rewrite quiz_run. cbv zeta. rewrite Hprev, Hcat.
    fold category_id candidates.
    assert (0 < Py.len candidates) as Hlen.
    { unfold Py.len. destruct candidates; simpl; [done|lia]. }
    pose proof (randrange_in_range _ Hlen) as Hr.
    destruct (getitem_in_range candidates _ Hr) as [Hget [q Hq]].
    exists q. split; [done|]. split; [done|].
    destruct (Z.gtb_spec (Py.len candidates) 0); [|lia].
    by rewrite Hget, Hq. }
  split; [intros q; apply quiz_candidates_elem_of|].
  split; [|split; [exact Hdraw|]].
  - intros Hnil. rewrite quiz_run. cbv zeta. rewrite Hprev, Hcat.
    fold category_id candidates. by rewrite Hnil.
  - intros q Hone. split; [|done].
    destruct Hdraw as (q' & Hq' & Hr & Hrun); [by rewrite Hone|].
    rewrite Hone in Hq', Hr. unfold Py.len in Hr. simpl in Hr.
    replace (Z.to_nat (randrange 0 (Py.len [q]))) with 0%nat in Hq'
      by (unfold Py.len; simpl; lia).
    simpl in Hq'. by injection Hq' as <-.
Qed.

End QuizDraw.

Lemma lowest_in_range n : 0 < n -> 0 <= lowest 0 n < n.
Proof. unfold lowest. lia. Qed.

(** C2: with no previous question and the question of id 5 as the only
    candidate, the quiz returns the question of id 5. *)
Lemma quiz_spec_witness :
  quiz_candidates [] (Some 0) (question_rows store_of_question_5)
    = [sample_question 5] /\
  Quiz.question <$>
    payload_of (quiz lowest
                  (quiz_request (Py.Value [])
                     (Py.Value {| quiz_category_id_field := Py.Value 0 |}))
                  store_of_question_5)
    = Some (Some (format (sample_question 5))) /\
  f_id (format (sample_question 5)) = 5.
Proof.
  split; [reflexivity|]. split; [|reflexivity].
  destruct (quiz_spec lowest lowest_in_range
              (quiz_request (Py.Value [])
                 (Py.Value {| quiz_category_id_field := Py.Value 0 |}))
              store_of_question_5 []
              {| quiz_category_id_field := Py.Value 0 |}
              eq_refl eq_refl) as (_ & _ & _ & Hone).
  destruct (Hone (sample_question 5) eq_refl) as [Hrun _].
  by rewrite Hrun.
Defined.

(** With previous questions 1, 2 and 3 and only those three questions in
    the category, the quiz returns question null. *)
Example quiz_exhausted :
  quiz lowest
    (quiz_request (Py.Value [1; 2; 3])
       (Py.Value {| quiz_category_id_field := Py.Value 1 |}))
    (sample_store 3)
  = (sample_store 3,
     Return {| Quiz.success := true; Quiz.question := None |}).
Proof. reflexivity. Qed.

(** Every candidate is drawn by some draw in range. *)
Lemma quiz_any_candidate request st previous c (i : nat) q :
  Py.get (previous_questions (get_json request)) = Some previous ->
  Py.get (quiz_category (get_json request)) = Some c ->
  quiz_candidates previous (Py.get_default (quiz_category_id_field c) 0)
                  (question_rows st) !! i = Some q ->
  quiz (fun _ _ => Z.of_nat i) request st
  = (st, Return {| Quiz.success := true;
                   Quiz.question := Some (format q) |}).
Proof.
  intros Hprev Hcat Hq. rewrite quiz_run. cbv zeta. rewrite Hprev, Hcat.
  set (candidates := quiz_candidates _ _ _) in *.
  assert (0 <= Z.of_nat i < Py.len candidates) as Hi.
  { apply lookup_lt_Some in Hq. unfold Py.len. lia. }
  destruct (getitem_in_range candidates _ Hi) as [Hget _].
  destruct (Z.gtb_spec (Py.len candidates) 0); [|lia].
  by rewrite Hget, Nat2Z.id, Hq.
Qed.

(** * Further properties of the handlers *)

Import App.

(** ** Pages *)
Section Pages.
Context {B : Type}.
Implicit Types (request : Request B) (selection : list Question).

(** The length of a page for every page number: pages below zero are
    measured from the end of the selection. *)
Lemma paginate_questions_length request selection :
  Py.len (paginate_questions request selection) =
  let p := page_of request in
  let N := Py.len selection in
  if p <? 0 then Z.min 10 (Z.max 0 (N + 10 * p))
  else if p =? 0 then 0
  else Z.min 10 (Z.max 0 (N - 10 * (p - 1))).
Proof.
  rewrite paginate_questions_slice, slice_length. cbv zeta.
  unfold Py.adjust_index, Py.len. rewrite length_map.
  destruct (Z.ltb_spec (page_of request) 0);
    [|destruct (Z.eqb_spec (page_of request) 0)];
    destruct (Z.ltb_spec ((page_of request - 1) * 10) 0);
    destruct (Z.ltb_spec (page_of request * 10) 0); lia.
Qed.

(** X7: a page number below zero selects from the end of the selection:
    page p < 0 of N questions holds min(10, max(0, N + 10*p)) questions,
    the ones that start at position max(0, N - 10*(1 - p)); page -1 of
    more than twenty questions is the ten before the last ten. *)
Theorem paginate_questions_from_the_end request selection :
  page_of request < 0 ->
  let p := page_of request in
  let N := Py.len selection in
  Py.len (paginate_questions request selection)
    = Z.min 10 (Z.max 0 (N + 10 * p)) /\
  paginate_questions request selection =
    take (Z.to_nat (Z.min 10 (Z.max 0 (N + 10 * p))))
         (drop (Z.to_nat (Z.max 0 (N - 10 * (1 - p))))
               (map format selection)).
Proof.
  intros Hp p N. split.
  - rewrite paginate_questions_length. cbv zeta. fold p N.
    by destruct (Z.ltb_spec p 0); [|lia].
  - rewrite paginate_questions_slice. fold p.
    unfold Py.slice, Py.adjust_index. cbv zeta.
    change (Z.of_nat (length (map format selection)))
      with (Py.len (map format selection)).
    assert (Py.len (map format selection) = N) as ->
      by (unfold N, Py.len; by rewrite length_map).
    destruct (Z.ltb_spec ((p - 1) * 10) 0); [|lia].
    destruct (Z.ltb_spec (p * 10) 0); [|lia].
    f_equal; [|f_equal]; lia.
Qed.

Lemma pages_concat (b : B) selection (k : nat) :
  concat (map (fun p => paginate_questions (mkRequest (Some p) b) selection)
              (seqZ 1 (Z.of_nat k)))
  = take (10 * k) (map format selection).
Proof.
  induction k as [|k IH]; [done|].
  rewrite seqZ_S, map_app, concat_app, IH. simpl.
  rewrite paginate_questions_from_page_1 by (unfold page_of; simpl; lia).
  rewrite app_nil_r. unfold page_of. simpl.
  replace (Z.to_nat ((1 + Z.of_nat k - 1) * 10)) with (10 * k)%nat by lia.
  rewrite take_take_drop. f_equal. lia.
Qed.

End Pages.

(** [paginate_questions_from_the_end] on sample data. *)
Lemma paginate_questions_from_the_end_witness :
  map f_id (paginate_questions (request_page (Some (-1))) (sample_rows 25))
    = [6; 7; 8; 9; 10; 11; 12; 13; 14; 15].
Proof.
  destruct (paginate_questions_from_the_end
              (request_page (Some (-1))) (sample_rows 25)) as [_ Hpage].
  { vm_compute. reflexivity. }
  rewrite Hpage. reflexivity.
Defined.

(** ** GET /questions over all its pages *)
Section Listings.
Implicit Types (st : Store) (request : Request unit).

Lemma listed_page request st :
  listed request st =
  paginate_questions request (order_by_id (question_rows st)).
Proof.
  unfold listed.
  destruct (get_questions_run request st) as (categories & _ & ->).
  cbv zeta. destruct (Py.len _ =? 0) eqn:Hz; simpl; [|done].
  symmetry. by apply len_zero_iff.
Qed.

Lemma ascending_ids (l : list Question) :
  ascending l -> StronglySorted Z.le (map id l).
Proof.
  induction 1 as [|x l Hs IH Hx]; simpl; constructor; [done|].
  by apply Forall_map.
Qed.

(** X6: GET /questions on N stored questions answers 404 exactly when the
    page p (1 when absent) is 0, or is positive with N <= 10*(p-1), or is
    negative with N <= -10*p; every other request is answered. *)
Theorem get_questions_404_boundary request st :
  let p := page_of request in
  let N := Py.len (question_rows st) in
  (get_questions request st = (st, Abort 404) <->
   p = 0 \/ (1 <= p /\ N <= 10 * (p - 1)) \/ (p < 0 /\ N <= - (10 * p))) /\
  (payload_of (get_questions request st) = None <->
   get_questions request st = (st, Abort 404)).
Proof.
  intros p N.
  destruct (get_questions_run request st) as (categories & _ & Hrun).
  rewrite Hrun. cbv zeta.
  pose proof (paginate_questions_length request
                (order_by_id (question_rows st))) as Hlen.
  cbv zeta in Hlen. fold p in Hlen.
  assert (Py.len (order_by_id (question_rows st)) = N) as HN
    by (unfold N, Py.len; by rewrite order_by_id_length).
  rewrite HN in Hlen.
  assert (0 <= N) by (unfold N, Py.len; lia).
  destruct (Z.eqb_spec (Py.len (paginate_questions request
                                  (order_by_id (question_rows st)))) 0)
    as [Hz|Hz]; (split; [|done]).
  - split; [intros _|done]. rewrite Hz in Hlen.
    destruct (Z.ltb_spec p 0); [|destruct (Z.eqb_spec p 0)]; lia.
  - split; [intros [=]|]. intros Hb. exfalso. apply Hz. rewrite Hlen.
    destruct (Z.ltb_spec p 0); [|destruct (Z.eqb_spec p 0)]; lia.
Qed.

(** X8: the pages 1 to ceil(N/10) of GET /questions are all answered, and
    one after the other they list every stored question exactly once, in
    ascending id order. *)
Theorem get_questions_pages_cover st :
  let N := Py.len (question_rows st) in
  let all_pages :=
    concat (map (fun p => listed (request_page (Some p)) st)
                (seqZ 1 (page_count N))) in
  all_pages = map format (order_by_id (question_rows st)) /\
  Permutation (map f_id all_pages) (map id (question_rows st)) /\
  StronglySorted Z.le (map f_id all_pages) /\
  forall p, 1 <= p <= page_count N ->
            exists payload,
              get_questions (request_page (Some p)) st = (st, Return payload).
Proof.
  intros N all_pages.
  assert (0 <= N) as HN0 by (unfold N, Py.len; lia).
  assert (N <= 10 * page_count N < N + 10) as Hk.
  { unfold page_count.
    pose proof (Z.div_mod (N + 9) 10 ltac:(lia)).
    pose proof (Z.mod_pos_bound (N + 9) 10 ltac:(lia)). lia. }
  assert (all_pages = map format (order_by_id (question_rows st))) as Hall.
  { unfold all_pages.
    erewrite map_ext; [|intros p; apply listed_page].
    rewrite <- (Z2Nat.id (page_count N)) by lia.
    rewrite (pages_concat tt). apply take_ge.
    rewrite length_map, order_by_id_length. clear -Hk HN0.
    unfold N, Py.len in *. lia. }
  split; [done|]. rewrite Hall, map_map. simpl.
  change (map (fun x => id x) ?l) with (map id l).
  split; [apply Permutation_map, order_by_id_perm|]. split.
  - apply ascending_ids, order_by_id_ascending.
  - intros p Hp.
    destruct (get_questions_run (request_page (Some p)) st)
      as (categories & _ & ->). cbv zeta.
    pose proof (paginate_questions_length (request_page (Some p))
                  (order_by_id (question_rows st))) as Hlen.
    cbv zeta in Hlen. unfold page_of in Hlen. simpl in Hlen.
    change (Z.of_nat (length (order_by_id (question_rows st))))
      with (Py.len (order_by_id (question_rows st))) in Hlen.
    assert (Py.len (order_by_id (question_rows st)) = N) as HN
      by (unfold N, Py.len; by rewrite order_by_id_length).
    destruct (Z.eqb_spec (Py.len (paginate_questions (request_page (Some p))
                                    (order_by_id (question_rows st)))) 0)
      as [Hz|Hz]; [|eauto].
    exfalso. rewrite Hz in Hlen. rewrite HN in Hlen.
    destruct (Z.ltb_spec p 0); [lia|]. destruct (Z.eqb_spec p 0); lia.
Qed.

(** [get_questions_pages_cover] on sample data. *)
Lemma get_questions_pages_cover_witness :
  exists payload,
    get_questions (request_page (Some 2)) (sample_store 15)
      = (sample_store 15, Return payload).
Proof.
  destruct (get_questions_pages_cover (sample_store 15)) as (_ & _ & _ & Hp).
  apply (Hp 2). vm_compute. split; discriminate.
Defined.

End Listings.

(** [get_questions_404_boundary] on sample data. *)
Lemma get_questions_404_boundary_witness :
  get_questions (request_page (Some 3)) (sample_store 15)
    = (sample_store 15, Abort 404).
Proof.
  apply (proj1 (get_questions_404_boundary (request_page (Some 3))
                  (sample_store 15))).
  right. left. vm_compute. split; discriminate.
Defined.

(** ** GET /categories *)
Section CategoriesFacts.
Implicit Types (st : Store) (rows : list Category) (c : Category).

Lemma get_categories_run st :
  exists payload,
    get_categories st = (st, Return payload) /\
    Categories.success payload = true /\
    forall i, Categories.categories payload !! i
              = label_of (category_rows st) i.
Proof.
  destruct (read_categories_run st) as (categories & Hread & Hlookup).
  eexists. unfold get_categories, bind. rewrite Hread.
  split; [reflexivity|]. by split.
Qed.

Lemma label_of_is_Some rows i :
  is_Some (label_of rows i) <-> i ∈ map cat_id rows.
Proof.
  unfold label_of. rewrite fmap_is_Some, <- not_eq_None_Some, last_None.
  rewrite list_elem_of_In, in_map_iff. split.
  - destruct (List.filter _ rows) as [|c l] eqn:Hf; [done|]. intros _.
    assert (In c (List.filter (fun c => cat_id c =? i) rows)) as Hin
      by (rewrite Hf; by left).
    apply filter_In in Hin as [Hin Hid]. apply Z.eqb_eq in Hid. eauto.
  - intros (c & Hid & Hin) Hnil.
    assert (In c (List.filter (fun c => cat_id c =? i) rows)) as Hc
      by (apply filter_In; split; [done|by apply Z.eqb_eq]).
    by rewrite Hnil in Hc.
Qed.

Lemma label_of_last_row rows1 c rows2 :
  cat_id c ∉ map cat_id rows2 ->
  label_of (rows1 ++ c :: rows2) (cat_id c) = Some (cat_type c).
Proof.
  intros Hnotin. unfold label_of. rewrite List.filter_app. simpl.
  rewrite Z.eqb_refl.
  assert (List.filter (fun c0 => cat_id c0 =? cat_id c) rows2 = []) as ->.
  { destruct (List.filter _ rows2) as [|c' l] eqn:Hf; [done|]. exfalso.
    assert (In c' (List.filter (fun c0 => cat_id c0 =? cat_id c) rows2))
      as Hin by (rewrite Hf; by left).
    apply filter_In in Hin as [Hin Hid]. apply Z.eqb_eq in Hid.
    apply Hnotin. rewrite <- Hid. by apply list_elem_of_In, in_map. }
  by rewrite last_snoc.
Qed.

(** X1: GET /categories never aborts and leaves the store as it is.  The
    keys of its categories map are exactly the ids of the category table
    (no key when the table is empty), and an id maps to the label of the
    last row of the table that carries it. *)
Theorem get_categories_spec st :
  exists payload,
    get_categories st = (st, Return payload) /\
    Categories.success payload = true /\
    (forall i, is_Some (Categories.categories payload !! i) <->
               i ∈ map cat_id (category_rows st)) /\
    (category_rows st = [] -> Categories.categories payload = ∅) /\
    (forall rows1 c rows2,
       category_rows st = rows1 ++ c :: rows2 ->
       cat_id c ∉ map cat_id rows2 ->
       Categories.categories payload !! cat_id c = Some (cat_type c)).
Proof.
  destruct (get_categories_run st) as (payload & Hrun & Hs & Hlookup).
  exists payload. split; [done|]. split; [done|]. split; [|split].
  - intros i. rewrite Hlookup. apply label_of_is_Some.
  - intros Hnil. apply map_eq. intros i.
    by rewrite Hlookup, Hnil, lookup_empty.
  - intros rows1 c rows2 Hrows Hnotin.
    rewrite Hlookup, Hrows. by apply label_of_last_row.
Qed.

(** X2: when the ids of the category table are distinct, the categories
    map of GET /categories has one entry a row: every row's id maps to
    that row's label, and the map has as many entries as the table has
    rows. *)
Theorem get_categories_distinct st :
  category_ids_distinct st ->
  exists payload,
    get_categories st = (st, Return payload) /\
    (forall c, c ∈ category_rows st ->
               Categories.categories payload !! cat_id c
               = Some (cat_type c)) /\
    size (Categories.categories payload) = length (category_rows st).
Proof.
  unfold category_ids_distinct. intros Hnd.
  destruct (get_categories_run st) as (payload & Hrun & _ & Hlookup).
  exists payload. split; [done|]. split.
  - intros c Hc. apply list_elem_of_split in Hc as (rows1 & rows2 & Hrows).
    rewrite Hlookup, Hrows. apply label_of_last_row.
    rewrite Hrows, map_app in Hnd. simpl in Hnd.
    apply NoDup_app in Hnd as (_ & _ & Hnd2).
    by apply NoDup_cons in Hnd2 as [Hnotin _].
  - rewrite <- size_dom.
    assert (dom (Categories.categories payload)
            = list_to_set (map cat_id (category_rows st))) as ->.
    { apply set_eq. intros i.
      rewrite elem_of_dom, Hlookup, label_of_is_Some, elem_of_list_to_set.
      done. }
    rewrite size_list_to_set by done. apply length_map.
Qed.

End CategoriesFacts.

(** [get_categories_spec] on sample data. *)
Lemma get_categories_spec_witness :
  exists payload,
    get_categories (sample_store 3) = (sample_store 3, Return payload) /\
    Categories.categories payload !! 2 = Some "Art"%string.
Proof.
  destruct (get_categories_spec (sample_store 3))
    as (payload & Hrun & _ & _ & _ & Hlast).
  exists payload. split; [exact Hrun|].
  apply (Hlast [ {| cat_id := 1; cat_type := "Science"%string |} ]
               {| cat_id := 2; cat_type := "Art"%string |} []).
  - reflexivity.
  - apply (bool_decide_unpack _). vm_compute. reflexivity.
Defined.

(** [get_categories_distinct] on sample data. *)
Lemma get_categories_distinct_witness :
  exists payload,
    get_categories (sample_store 3) = (sample_store 3, Return payload) /\
    size (Categories.categories payload) = 2%nat.
Proof.
  destruct (get_categories_distinct (sample_store 3))
    as (payload & Hrun & _ & Hsize).
  { unfold category_ids_distinct.
    apply (bool_decide_unpack _). vm_compute. reflexivity. }
  exists payload. split; [exact Hrun|]. exact Hsize.
Defined.

(** ** Every route: statuses, error bodies and effects *)
Section Serving.
Variable randrange : Z -> Z -> Z.
Implicit Types (st : Store) (e : Endpoint).

(** What a request does to the store, with the status it is answered
    with when the store changes. *)
Lemma serve_store e st :
  fst (serve randrange e st) = st \/
  (writes e = true /\ status (snd (serve randrange e st)) = 200 /\
   ((exists a b c d, fst (serve randrange e st) = fst (insert a b c d st)) \/
    (exists q, fst (serve randrange e st) = delete q st))).
Proof.
  destruct e as [|request|request question_id|request|request
                 |request category_id|request]; unfold serve, run_view.
  - destruct (get_categories_run st) as (payload & -> & _). by left.
  - destruct (get_questions_run request st) as (categories & _ & ->).
    cbv zeta. destruct (Py.len _ =? 0); by left.
  - rewrite delete_question_run.
    destruct (one_or_none _) as [[q|]|]; simpl; [|by left..].
    right. split; [done|]. split; [done|]. right. by exists q.
  - rewrite post_question_run. cbv zeta.
    destruct (is_empty_str _ || is_empty_str _); simpl; [by left|].
    right. split; [done|]. split; [done|]. left. eauto.
  - rewrite search_question_run.
    destruct (Py.get _) as [[|c t]|]; by left.
  - rewrite get_by_category_run. cbv zeta.
    destruct (bool_decide _); by left.
  - rewrite quiz_run. cbv zeta.
    destruct (Py.get (previous_questions _)); [|by left].
    destruct (Py.get (quiz_category _)); [|by left].
    destruct (Py.len _ >? 0); [|by left].
    destruct (Py.getitem _ _); by left.
Qed.

(** X4: only an answered POST /questions or DELETE /questions/{id}
    changes the store: every other route, and every request answered with
    an error, leaves it exactly as it was.  No request changes the
    category table, and the id sequence never goes back. *)
Theorem serve_effects e st :
  (writes e = false -> fst (serve randrange e st) = st) /\
  (status (snd (serve randrange e st)) <> 200 ->
   fst (serve randrange e st) = st) /\
  category_rows (fst (serve randrange e st)) = category_rows st /\
  question_id_seq st <= question_id_seq (fst (serve randrange e st)).
Proof.
  destruct (serve_store e st)
    as [->|(Hw & Hs & [(a & b & c & d & ->)|(q & ->)])];
    repeat split; simpl; try done; try lia; congruence.
Qed.

(** X5: every request keeps the question ids pairwise distinct and behind
    the id sequence. *)
Theorem serve_store_ok e st :
  store_ok st -> store_ok (fst (serve randrange e st)).
Proof.
  intros Hok.
  destruct (serve_store e st)
    as [->|(_ & _ & [(a & b & c & d & ->)|(q & ->)])].
  - done.
  - by apply insert_store_ok.
  - by apply delete_store_ok.
Qed.

(** X3: the failure modes of the routes, for requests whose body, where
    the route reads one, is a JSON object with fields of the documented
    types (absent and null included) and that the store accepts.  A
    request is answered either with status 200 and a dictionary whose
    success is true, or with the dictionary of an error handler, whose
    success is false and whose error is the status of the response.
    GET /categories never fails; GET /questions fails with 404 only;
    GET /categories/{id}/questions with 422 only; DELETE with 404, or
    with 500, which needs question ids that are not pairwise distinct.
    With such a body POST /questions and POST /search fail with 422 only,
    and POST /quizzes with 422, or with 500, which needs a draw outside
    the candidates. *)
Theorem serve_failure_modes e st :
  let r := snd (serve randrange e st) in
  (status r = 200 /\
   exists p, body r = ViewJson p /\ payload_success p = true) \/
  ((exists m, body r = ErrorJson {| error_success := false;
                                    error := status r;
                                    message := m |}) /\
   match e with
   | GET_categories => False
   | GET_questions _ => status r = 404
   | DELETE_question _ _ =>
       status r = 404 \/
       (status r = 500 /\ ~ NoDup (map id (question_rows st)))
   | POST_questions _ | POST_search _ | GET_category_questions _ _ =>
       status r = 422
   | POST_quizzes _ =>
       status r = 422 \/
       (status r = 500 /\
        ~ (forall n, 0 < n -> 0 <= randrange 0 n < n))
   end).
Proof.
  destruct e as [|request|request question_id|request|request
                 |request category_id|request]; unfold serve, run_view.
  - destruct (get_categories_run st) as (payload & -> & Hs & _).
    left. simpl. eauto.
  - destruct (get_questions_run request st) as (categories & _ & ->).
    cbv zeta. destruct (Py.len _ =? 0); simpl; [right|left]; eauto.
  - rewrite delete_question_run.
    destruct (List.filter _ _) as [|q [|q' l]] eqn:Hf; simpl.
    + right. eauto.
    + left. eauto.
    + right. split; [eauto|]. right. split; [done|]. intros Hnd.
      assert (In q (List.filter (fun x => id x =? question_id)
                                (question_rows st))) as Hq
        by (rewrite Hf; by left).
      apply filter_In in Hq as [Hq Hid]. apply Z.eqb_eq in Hid.
      apply list_elem_of_In in Hq.
      pose proof (filter_id_unique _ q Hnd Hq) as Hone.
      rewrite Hid, Hf in Hone. discriminate.
  - rewrite post_question_run. cbv zeta.
    destruct (is_empty_str _ || is_empty_str _); simpl; [right|left]; eauto.
  - rewrite search_question_run.
    destruct (Py.get _) as [[|c t]|]; simpl; [right|left|right]; eauto.
  - rewrite get_by_category_run. cbv zeta.
    destruct (bool_decide _); simpl; [right|left]; eauto.
  - rewrite quiz_run. cbv zeta.
    destruct (Py.get (previous_questions _)); [|right; simpl; eauto].
    destruct (Py.get (quiz_category _)); [|right; simpl; eauto].
    destruct (Z.gtb_spec (Py.len (quiz_candidates l
                 (Py.get_default (quiz_category_id_field q) 0)
                 (question_rows st))) 0) as [Hpos|Hzero];
      [|left; simpl; eauto].
    destruct (Py.getitem _ _) eqn:Hget; [left; simpl; eauto|].
    right. simpl. split; [eauto|]. right. split; [done|]. intros Hrange.
    destruct (getitem_in_range _ _ (Hrange _ Hpos)) as [Heq [x Hx]].
    congruence.
Qed.

End Serving.

(** [serve_effects] on sample data. *)
Lemma serve_effects_witness :
  fst (serve lowest (POST_search (search_request None (Py.Value "a"%string)))
             (sample_store 3)) = sample_store 3.
Proof.
  apply (proj1 (serve_effects lowest
                  (POST_search (search_request None (Py.Value "a"%string)))
                  (sample_store 3))).
  reflexivity.
Defined.

(** [serve_store_ok] on sample data. *)
Lemma serve_store_ok_witness :
  store_ok (fst (serve lowest (DELETE_question (request_page None) 2)
                       (sample_store 3))).
Proof.
  apply serve_store_ok.
  unfold store_ok. apply (bool_decide_unpack _). vm_compute. reflexivity.
Defined.

(** ** Posting and deleting, one after the other *)
Section Composition.
Implicit Types (st : Store) (q : Question) (l : list Question).

Lemma insert_by_id_snoc x l q :
  id x < id q -> insert_by_id x (l ++ [q]) = insert_by_id x l ++ [q].
Proof.
  intros Hlt. induction l as [|y l IH]; simpl.
  - by destruct (Z.ltb_spec (id x) (id q)); [|lia].
  - destruct (id x <? id y); [done|]. by rewrite IH.
Qed.

(** A question with the greatest id goes to the end of the listing. *)
Lemma order_by_id_snoc l q :
  Forall (fun x => id x < id q) l ->
  order_by_id (l ++ [q]) = order_by_id l ++ [q].
Proof.
  unfold order_by_id. rewrite foldr_app. simpl.
  induction 1 as [|x l Hx Hl IH]; simpl; [done|].
  by rewrite IH, insert_by_id_snoc.
Qed.

Lemma filter_not_id_fresh l i :
  i ∉ map id l -> List.filter (fun x => negb (id x =? i)) l = l.
Proof.
  induction l as [|x l IH]; simpl; [done|].
  rewrite not_elem_of_cons. intros [Hne Hnotin].
  destruct (Z.eqb_spec (id x) i); [congruence|]. simpl. by rewrite IH.
Qed.

Lemma store_ok_seq_fresh st :
  store_ok st -> question_id_seq st ∉ map id (question_rows st).
Proof.
  intros [_ Hlt] Hin.
  apply list_elem_of_In, in_map_iff in Hin as (x & Hx & Hin).
  rewrite Forall_forall in Hlt. apply list_elem_of_In in Hin.
  specialize (Hlt x Hin). simpl in Hlt. lia.
Qed.

(** X9: on a store with distinct ids behind the sequence, a posted
    question goes to the end of the id-ordered listing: it is the last
    question of the last page of GET /questions (page N/10 + 1 for N
    questions before the post), and the last question of the response's
    own list when that is page 1 and fewer than ten questions were
    stored. *)
Theorem post_question_last_page (request : Request PostBody) st :
  let body := get_json request in
  let new_question := Py.get (body_question body) in
  let new_answer := Py.get (body_answer body) in
  let N := Py.len (question_rows st) in
  store_ok st ->
  new_question <> Some EmptyString -> new_answer <> Some EmptyString ->
  exists st' payload,
    post_question request st = (st', Return payload) /\
    let record := {| id := Created.created payload;
                     question := new_question;
                     answer := new_answer;
                     category := Py.get (body_category body);
                     difficulty := Py.get (body_difficulty body) |} in
    order_by_id (question_rows st')
      = order_by_id (question_rows st) ++ [record] /\
    last (listed (request_page (Some (N / 10 + 1))) st')
      = Some (format record) /\
    (page_of request = 1 -> N < 10 ->
     last (Created.questions payload) = Some (format record)).
Proof.
  intros body new_question new_answer N Hok Hq Ha.
  rewrite post_question_run. cbv zeta. fold body new_question new_answer.
  rewrite <- is_empty_str_true in Hq, Ha.
  apply not_true_is_false in Hq, Ha. rewrite Hq, Ha. simpl.
  do 2 eexists. split; [reflexivity|]. simpl.
  set (record := {| id := question_id_seq st; question := new_question |}).
  assert (order_by_id (question_rows st ++ [record])
          = order_by_id (question_rows st) ++ [record]) as Hord.
  { apply order_by_id_snoc. by destruct Hok as [_ Hlt]. }
  assert (0 <= N) as HN by (unfold N, Py.len; lia).
  pose proof (Z.div_mod N 10 ltac:(lia)) as Hdiv.
  pose proof (Z.mod_pos_bound N 10 ltac:(lia)) as Hmod.
  assert (length (order_by_id (question_rows st)) = Z.to_nat N) as Hlen
    by (rewrite order_by_id_length; unfold N, Py.len; lia).
  split; [done|]. split.
  - rewrite listed_page. simpl.
    rewrite paginate_questions_from_page_1 by (unfold page_of; simpl; lia).
    unfold page_of. simpl. rewrite Hord, map_app. simpl.
    rewrite drop_app_le by (rewrite length_map; lia).
    rewrite take_ge
      by (rewrite length_app, length_drop, length_map; simpl; lia).
    apply last_snoc.
  - intros Hp HN10.
    rewrite paginate_questions_from_page_1 by lia.
    rewrite Hp, Hord, map_app.
    change (Z.to_nat ((1 - 1) * 10)) with 0%nat. rewrite drop_0.
    rewrite take_ge by (rewrite length_app, length_map; simpl; lia).
    apply last_snoc.
Qed.

(** X10: on a store with distinct ids behind the sequence, posting a
    question and then deleting the id the post returned restores the
    question table; only the id sequence has moved on by one. *)
Theorem post_then_delete (request : Request PostBody)
    (request' : Request unit) st :
  store_ok st ->
  Py.get (body_question (get_json request)) <> Some EmptyString ->
  Py.get (body_answer (get_json request)) <> Some EmptyString ->
  exists st1 created st2 deleted,
    post_question request st = (st1, Return created) /\
    delete_question request' (Created.created created) st1
      = (st2, Return deleted) /\
    question_rows st2 = question_rows st /\
    category_rows st2 = category_rows st /\
    question_id_seq st2 = question_id_seq st + 1 /\
    Deleted.total_questions deleted = Py.len (question_rows st).
Proof.
  intros Hok Hq Ha.
  rewrite post_question_run. cbv zeta.
  rewrite <- is_empty_str_true in Hq, Ha.
  apply not_true_is_false in Hq, Ha. rewrite Hq, Ha. simpl.
  pose proof (store_ok_seq_fresh st Hok) as Hfresh.
  do 2 eexists. eexists. eexists. split; [reflexivity|]. simpl.
  rewrite delete_question_run. simpl.
  rewrite List.filter_app, filter_id_absent by done. simpl.
  rewrite Z.eqb_refl. simpl. unfold delete. simpl.
  rewrite List.filter_app, filter_not_id_fresh by done. simpl.
  rewrite Z.eqb_refl. simpl. rewrite app_nil_r.
  split; [reflexivity|]. by destruct st.
Qed.

(** X11: once DELETE /questions/{id} has been answered, a second delete
    of the same id answers 404 and changes nothing. *)
Theorem delete_twice (request request' : Request unit) question_id
    st st' payload :
  delete_question request question_id st = (st', Return payload) ->
  delete_question request' question_id st' = (st', Abort 404).
Proof.
  rewrite delete_question_run. intros Hrun.
  apply delete_question_404_iff.
  destruct (List.filter _ _) as [|q [|q' l]] eqn:Hf; simpl in Hrun;
    [discriminate| |discriminate].
  injection Hrun as <- _.
  assert (In q (List.filter (fun x => id x =? question_id)
                            (question_rows st))) as Hq
    by (rewrite Hf; by left).
  apply filter_In in Hq as [_ Hid]. apply Z.eqb_eq in Hid.
  rewrite <- Hid. apply delete_removes.
Qed.

End Composition.

(** [post_question_last_page] on sample data. *)
Lemma post_question_last_page_witness :
  exists st' payload,
    post_question
      (post_request (Py.Value "Q"%string) (Py.Value "A"%string)
                    (Py.Value 1) (Py.Value 2))
      (sample_store 12) = (st', Return payload) /\
    f_id <$> last (listed (request_page (Some 2)) st') = Some 13.
Proof.
  destruct (post_question_last_page
              (post_request (Py.Value "Q"%string) (Py.Value "A"%string)
                            (Py.Value 1) (Py.Value 2))
              (sample_store 12))
    as (st' & payload & Hrun & _ & Hlast & _);
    [unfold store_ok; apply (bool_decide_unpack _); vm_compute; reflexivity
    |discriminate|discriminate|].
  exists st', payload. split; [exact Hrun|].
  change (Py.len (question_rows (sample_store 12)) / 10 + 1) with 2 in Hlast.
  rewrite Hlast. injection Hrun as _ <-. reflexivity.
Defined.

(** [post_then_delete] on sample data. *)
Lemma post_then_delete_witness :
  exists st1 created st2 deleted,
    post_question
      (post_request (Py.Value "Q"%string) (Py.Value "A"%string)
                    (Py.Value 1) (Py.Value 2))
      (sample_store 3) = (st1, Return created) /\
    delete_question (request_page None) (Created.created created) st1
      = (st2, Return deleted) /\
    question_rows st2 = question_rows (sample_store 3).
Proof.
  destruct (post_then_delete
              (post_request (Py.Value "Q"%string) (Py.Value "A"%string)
                            (Py.Value 1) (Py.Value 2))
              (request_page None) (sample_store 3))
    as (st1 & created & st2 & deleted & Hpost & Hdel & Hrows & _);
    [unfold store_ok; apply (bool_decide_unpack _); vm_compute; reflexivity
    |discriminate|discriminate|].
  exists st1, created, st2, deleted. by split; [|split].
Defined.

(** [delete_twice] on sample data. *)
Lemma delete_twice_witness :
  exists st' payload,
    delete_question (request_page None) 2 (sample_store 3)
      = (st', Return payload) /\
    delete_question (request_page None) 2 st' = (st', Abort 404).
Proof.
  do 2 eexists. split; [rewrite delete_question_run; reflexivity|].
  eapply (delete_twice (request_page None) (request_page None) 2
            (sample_store 3)).
  rewrite delete_question_run. reflexivity.
Defined.

(** ** The quiz, whatever the draw *)
Section QuizAnyDraw.
Variable randrange : Z -> Z -> Z.
Implicit Types (st : Store) (request : Request QuizBody).

Lemma getitem_elem_of {A : Type} (l : list A) i x :
  Py.getitem l i = Some x -> x ∈ l.
Proof.
  unfold Py.getitem.
  destruct (_ <? 0); [destruct (0 <=? _); [|done]|];
    apply list_elem_of_lookup_2.
Qed.

(** X12: whatever index is drawn, POST /quizzes never returns a question
    whose id is in previous_questions, nor one outside the requested
    category (any category for id 0): a returned question is a stored
    question that meets both.  The answer is question null exactly when
    no stored question meets both. *)
Theorem quiz_never_repeats request st previous c :
  Py.get (previous_questions (get_json request)) = Some previous ->
  Py.get (quiz_category (get_json request)) = Some c ->
  let category_id := Py.get_default (quiz_category_id_field c) 0 in
  (forall f,
     Quiz.question <$> payload_of (quiz randrange request st)
       = Some (Some f) ->
     exists q, f = format q /\ q ∈ question_rows st /\
               (f_id f ∉ previous) /\
               (category_id = Some 0 \/ f_category f = category_id)) /\
  (quiz randrange request st
     = (st, Return {| Quiz.success := true; Quiz.question := None |}) <->
   forall q, q ∈ question_rows st ->
             id q ∈ previous \/
             (category_id <> Some 0 /\ category q <> category_id)).
Proof.
  intros Hprev Hcat category_id. rewrite quiz_run. cbv zeta.
  rewrite Hprev, Hcat. fold category_id.
  set (candidates := quiz_candidates previous category_id (question_rows st)).
  assert (forall q, q ∈ candidates <->
                    q ∈ question_rows st /\ (id q ∉ previous) /\
                    (category_id = Some 0 \/ category q = category_id))
    as Hcand.
  { intros q. unfold candidates, quiz_candidates.
    rewrite list_elem_of_In, filter_In, andb_true_iff, !bool_decide_eq_true.
    rewrite <- list_elem_of_In. tauto. }
  split.
  - intros f. destruct (Py.len candidates >? 0); [|intros [=]].
    destruct (Py.getitem _ _) as [q|] eqn:Hget; [|intros [=]].
    simpl. intros [= <-]. exists q. split; [done|].
    apply getitem_elem_of, Hcand in Hget. simpl. tauto.
  - assert (candidates = [] <->
            forall q, q ∈ question_rows st ->
                      id q ∈ previous \/
                      (category_id <> Some 0 /\ category q <> category_id))
      as <-.
    { split.
      - intros Hnil q Hq.
        destruct (decide (id q ∈ previous)) as [|Hnotin]; [by left|right].
        destruct (decide (category_id = Some 0)) as [H0|H0].
        + exfalso. assert (q ∈ candidates) as Hin by (apply Hcand; auto).
          rewrite Hnil in Hin. by apply elem_of_nil in Hin.
        + split; [done|]. intros Heq.
          assert (q ∈ candidates) as Hin by (apply Hcand; auto).
          rewrite Hnil in Hin. by apply elem_of_nil in Hin.
      - intros Hall. destruct candidates as [|q l]; [done|]. exfalso.
        destruct (proj1 (Hcand q) (list_elem_of_here _ _))
          as (Hq & Hnotin & Hcatq).
        destruct (Hall q Hq) as [|[H0 Hne]]; [done|].
        destruct Hcatq; done. }
    destruct candidates as [|q l]; [done|].
    unfold Py.len. simpl length.
    destruct (Z.gtb_spec (Z.of_nat (S (length l))) 0); [|lia].
    split; [|done]. by destruct (Py.getitem _ _).
Qed.

End QuizAnyDraw.

(** [quiz_never_repeats] on sample data. *)
Lemma quiz_never_repeats_witness :
  quiz lowest
    (quiz_request (Py.Value [1; 2; 3])
       (Py.Value {| quiz_category_id_field := Py.Value 0 |}))
    (sample_store 3)
  = (sample_store 3,
     Return {| Quiz.success := true; Quiz.question := None |}).
Proof.
  apply (proj2 (quiz_never_repeats lowest
                  (quiz_request (Py.Value [1; 2; 3])
                     (Py.Value {| quiz_category_id_field := Py.Value 0 |}))
                  (sample_store 3) [1; 2; 3]
                  {| quiz_category_id_field := Py.Value 0 |}
                  eq_refl eq_refl)).
  intros q Hq. left.
  assert (id q ∈ map id (question_rows (sample_store 3))) as Hid
    by by apply list_elem_of_In, in_map, list_elem_of_In.
  exact Hid.
Defined.

(** ** Search terms *)
Section SearchTerms.
Implicit Types (st : Store) (a b t s : string).

Local Open Scope string_scope.

Lemma append_assoc s t u : (s ++ t) ++ u = s ++ (t ++ u).
Proof.
  induction s as [|c s IH]; [done|]. rewrite !app_String. by f_equal.
Qed.

Lemma lower_empty_iff t : Sql.lower t = EmptyString <-> t = EmptyString.
Proof. by destruct t. Qed.

Lemma lower_search_pattern t :
  Sql.lower (search_pattern t) = search_pattern (Sql.lower t).
Proof.
  unfold search_pattern.
  change (Sql.lower (String Sql.percent (t ++ String Sql.percent EmptyString)))
    with (String Sql.percent
            (Sql.lower (t ++ String Sql.percent EmptyString))).
  by rewrite lower_app.
Qed.

(** X13: POST /search does not depend on the case of the search term: two
    terms that differ only in the case of their ASCII letters get the
    same answer, be it the 422 or the payload. *)
Theorem search_question_term_case (page : option Z) t t' st :
  Sql.lower t = Sql.lower t' ->
  search_question (search_request page (Py.Value t)) st
  = search_question (search_request page (Py.Value t')) st.
Proof.
  intros Hlow. rewrite !search_question_run. simpl.
  assert (forall q, Sql.ilike (question q) (search_pattern t)
                    = Sql.ilike (question q) (search_pattern t')) as Hsame.
  { intros q. unfold Sql.ilike. destruct (question q); [|done].
    by rewrite !lower_search_pattern, Hlow. }
  assert (List.filter (fun q => Sql.ilike (question q) (search_pattern t))
                      (question_rows st)
          = List.filter (fun q => Sql.ilike (question q) (search_pattern t'))
                        (question_rows st)) as Hsel
    by (apply filter_ext; exact Hsame).
  destruct t as [|c t], t' as [|c' t']; try done.
  unfold search_request in *. by rewrite Hsel.
Qed.

(** X14: the search term goes into the ILIKE pattern as it is, so a
    percent sign in it is a wildcard.  For ASCII a and b without
    wildcard characters and an ASCII text, the term a%b selects the text
    exactly when it contains a and, somewhere after it, b, the case of
    the letters A to Z ignored.  The term % alone selects every question
    that has a text. *)
Theorem search_percent_is_wildcard a b (text : string) :
  plain a = true -> plain b = true ->
  (ascii_string a = true -> ascii_string b = true ->
   ascii_string text = true ->
   (Sql.ilike (Some text) (search_pattern (a ++ String Sql.percent b)) = true
    <->
    exists pre rest,
      Sql.lower text = pre ++ Sql.lower a ++ rest /\
      contains rest (Sql.lower b) = true)) /\
  Sql.ilike (Some text) (search_pattern (String Sql.percent EmptyString))
    = true.
Proof.
  intros Ha Hb. split.
  - intros _ _ _.
    unfold Sql.ilike. rewrite lower_search_pattern, lower_app.
    change (Sql.lower (String Sql.percent b))
      with (String Sql.percent (Sql.lower b)).
    unfold search_pattern. rewrite like_percent.
    apply lower_plain in Ha, Hb. split.
    + intros (pre & suf & Htext & Hl).
      rewrite append_assoc in Hl.
      apply like_plain in Hl as (rest & -> & Hl); [|done].
      exists pre, rest. split; [done|].
      rewrite app_String in Hl. by rewrite like_contains in Hl.
    + intros (pre & rest & Htext & Hc).
      exists pre, (Sql.lower a ++ rest). split; [done|].
      rewrite append_assoc. apply like_plain; [done|].
      exists rest. split; [done|].
      rewrite app_String. by rewrite like_contains.
  - unfold Sql.ilike, search_pattern. apply like_percent.
    exists EmptyString, (Sql.lower text). split; [done|].
    apply like_percent. exists (Sql.lower text), EmptyString.
    split; [|done]. clear. induction (Sql.lower text) as [|c s IH]; [done|].
    rewrite app_String. by f_equal.
Qed.

End SearchTerms.

(** [search_question_term_case] on sample data. *)
Lemma search_question_term_case_witness :
  search_question (search_request None (Py.Value "CAPITAL"%string))
                  (sample_store 3)
  = search_question (search_request None (Py.Value "capital"%string))
                    (sample_store 3).
Proof.
  apply search_question_term_case. reflexivity.
Defined.

(** [search_percent_is_wildcard] on sample data. *)
Lemma search_percent_is_wildcard_witness :
  Sql.ilike (Some "What is the Capital"%string)
            (search_pattern "what%capital") = true.
Proof.
  apply (proj1 (search_percent_is_wildcard "what"%string "capital"%string
                  "What is the Capital"%string eq_refl eq_refl)
               eq_refl eq_refl eq_refl).
  exists EmptyString, " is the capital"%string. split; reflexivity.
Defined.

(** ** What the filtered listings hold *)
Section FilteredListings.
Implicit Types (st : Store).

(** X15: an answered POST /search lists only formatted stored questions
    that the filter selects, on every page; currentCategory has one entry
    for each match, as many as total_questions says.  A search without
    any match is answered too, with an empty list and total_questions 0,
    not with an error. *)
Theorem search_question_sound (request : Request SearchBody) st term :
  Py.get (searchTerm (get_json request)) = Some term ->
  term <> EmptyString ->
  exists payload,
    search_question request st = (st, Return payload) /\
    (forall f, f ∈ Search.questions payload ->
               exists q, f = format q /\ q ∈ question_rows st /\
                         Sql.ilike (question q) (search_pattern term) = true) /\
    Py.len (Search.currentCategory payload) = Search.total_questions payload /\
    (Search.total_questions payload = 0 <->
     forall q, q ∈ question_rows st ->
               Sql.ilike (question q) (search_pattern term) = false) /\
    (Search.total_questions payload = 0 -> Search.questions payload = []).
Proof.
  intros Hterm Hne. rewrite search_question_run, Hterm.
  destruct term as [|c term]; [done|]. cbv zeta.
  set (pattern := search_pattern (String c term)).
  set (selection := List.filter (fun q => Sql.ilike (question q) pattern)
                                (question_rows st)).
  eexists. split; [reflexivity|]. simpl.
  assert (Py.len selection = 0 <-> selection = []) as Hzero.
  { unfold Py.len. destruct selection; simpl; [done|]. split; [lia|done]. }
  split; [|split; [|split]].
  - intros f Hf. apply paginate_questions_formatted in Hf as (q & Hq & ->).
    exists q. split; [done|].
    apply list_elem_of_In, filter_In in Hq as [Hq Hm].
    split; [by apply list_elem_of_In|done].
  - unfold Py.len. by rewrite length_map.
  - rewrite Hzero. apply filter_nil_iff.
  - intros Hz. apply Hzero in Hz. rewrite Hz.
    apply length_zero_iff_nil.
    pose proof (paginate_questions_length request (@nil Question)) as Hlen.
    cbv zeta in Hlen. unfold Py.len in Hlen. simpl in Hlen.
    destruct (Z.ltb_spec (page_of request) 0); [lia|].
    destruct (Z.eqb_spec (page_of request) 0); lia.
Qed.

(** X16: an answered GET /categories/{id}/questions lists only questions
    of that category and always counts at least one.  With page 1 the
    list is not empty; a page past the last one is still answered with
    a payload, whose list is empty, where GET /questions answers 404. *)
Theorem get_by_category_sound (request : Request unit) category_id st
    payload :
  get_by_category request category_id st = (st, Return payload) ->
  (forall f, f ∈ ByCategory.questions payload ->
             f_category f = Some category_id) /\
  1 <= ByCategory.total_questions payload /\
  (page_of request = 1 -> ByCategory.questions payload <> []) /\
  (1 <= page_of request ->
   ByCategory.total_questions payload <= 10 * (page_of request - 1) ->
   ByCategory.questions payload = []).
Proof.
  rewrite get_by_category_run. cbv zeta.
  set (selection :=
         List.filter (fun q => Sql.eq_value (category q) (Some category_id))
                     (question_rows st)).
  case_bool_decide as Hin; [intros [=]|]. intros [= <-]. simpl.
  assert (1 <= Py.len selection) as Hpos.
  { apply list_elem_of_In, in_map_iff in Hin as (q & Hc & Hq).
    assert (In q selection) as Hsel
      by (apply filter_In; split; [done|by apply eq_value_Some]).
    unfold Py.len. destruct selection; [done|]. simpl. lia. }
  pose proof (paginate_questions_length request selection) as Hlen.
  cbv zeta in Hlen.
  split; [|split; [done|split]].
  - intros f Hf. apply paginate_questions_formatted in Hf as (q & Hq & ->).
    apply list_elem_of_In, filter_In in Hq as [_ Hc].
    by apply eq_value_Some in Hc.
  - intros Hp Hnil. rewrite Hnil, Hp in Hlen.
    change (Py.len []) with 0 in Hlen. simpl in Hlen. lia.
  - intros Hp Hbig. apply length_zero_iff_nil.
    unfold Py.len at 1 in Hlen.
    destruct (Z.ltb_spec (page_of request) 0); [lia|].
    destruct (Z.eqb_spec (page_of request) 0); lia.
Qed.

End FilteredListings.

(** [search_question_sound] on sample data. *)
Lemma search_question_sound_witness :
  exists payload,
    search_question (search_request None (Py.Value "zebra"%string))
                    (sample_store 3)
      = (sample_store 3, Return payload) /\
    Search.questions payload = [].
Proof.
  destruct (search_question_sound
              (search_request None (Py.Value "zebra"%string))
              (sample_store 3) "zebra"%string)
    as (payload & Hrun & _ & _ & _ & Hempty); [reflexivity|discriminate|].
  exists payload. split; [exact Hrun|]. apply Hempty.
  injection Hrun as <-. reflexivity.
Defined.

(** [get_by_category_sound] on sample data. *)
Lemma get_by_category_sound_witness :
  exists payload,
    get_by_category (request_page (Some 2)) 1 (sample_store 3)
      = (sample_store 3, Return payload) /\
    ByCategory.questions payload = [].
Proof.
  eexists. split; [rewrite get_by_category_run; reflexivity|].
  eapply (get_by_category_sound (request_page (Some 2)) 1 (sample_store 3)).
  - rewrite get_by_category_run. reflexivity.
  - vm_compute. discriminate.
  - vm_compute. discriminate.
Defined.

(** ** A page is a run of the selection *)
Section Runs.
Context {B : Type}.

(** X17: for every page number, negative ones and ones past the end
    included, the page is a run of consecutive formatted questions of the
    selection, in the order of the selection, and holds at most ten of
    them. *)
Theorem paginate_questions_run (request : Request B)
    (selection : list Question) :
  Py.len (paginate_questions request selection) <= 10 /\
  exists before behind,
    map format selection
    = before ++ paginate_questions request selection ++ behind.
Proof.
  split; [apply paginate_questions_at_most_10|].
  unfold paginate_questions, Py.slice. cbv zeta.
  set (l := map format selection).
  set (lo := Z.to_nat (Py.adjust_index _ _)).
  set (n := Z.to_nat (_ - _)).
  exists (take lo l), (drop n (drop lo l)).
  by rewrite (take_drop n (drop lo l)), (take_drop lo l).
Qed.

End Runs.
